(** * FullCourseGen: a shallow embedding of [main.py]

    The service is a FastAPI application whose handlers orchestrate calls to
    a generative model, a video search API and three document parsers.  The
    development below embeds the handlers and their helpers as Rocq
    functions:

    - Python [float] is the kernel's binary64 [float];
    - Python [str] is a list of Unicode code points ([pystr]);
    - values produced by [json.loads] are the inductive [json], a [dict]
      being an association list in insertion order;
    - exceptions are an error result ([res]), and the external services are
      oracles that thread an explicit world. *)

From Stdlib Require Import ZArith NArith List Bool Lia String Ascii Sorted.
From Stdlib Require Import Floats.
Import ListNotations.
Local Open Scope list_scope.
Set Warnings "-register-all".

(** ** Python strings *)

(** A [str] is a sequence of code points. *)
Definition pystr : Type := list N.

(** An ASCII literal as a [str]. *)
Definition py (s : string) : pystr :=
  map N_of_ascii (list_ascii_of_string s).

Definition NL : N := 10%N.

Fixpoint pystr_eqb (a b : pystr) : bool :=
  match a, b with
  | [], [] => true
  | x :: a', y :: b' => N.eqb x y && pystr_eqb a' b'
  | _, _ => false
  end.

(** [str.isspace] on one code point, which is what [str.strip()] removes. *)
Definition is_space (c : N) : bool :=
  ((9 <=? c) && (c <=? 13) || (28 <=? c) && (c <=? 32)
   || (c =? 133) || (c =? 160) || (c =? 5760)
   || (8192 <=? c) && (c <=? 8202)
   || (c =? 8232) || (c =? 8233) || (c =? 8239) || (c =? 8287)
   || (c =? 12288))%N.

(** [s.lstrip(chars)], [s.rstrip(chars)] and [s.strip(chars)] for a
    character class [f]. *)
Fixpoint lstrip_by (f : N -> bool) (s : pystr) : pystr :=
  match s with
  | [] => []
  | c :: rest => if f c then lstrip_by f rest else s
  end.

Definition rstrip_by (f : N -> bool) (s : pystr) : pystr :=
  rev (lstrip_by f (rev s)).

Definition strip_by (f : N -> bool) (s : pystr) : pystr :=
  rstrip_by f (lstrip_by f s).

(** [s.strip()] *)
Definition strip (s : pystr) : pystr := strip_by is_space s.

(** [s.startswith(p)] and [s.endswith(p)] *)
Fixpoint startswith (p s : pystr) : bool :=
  match p, s with
  | [], _ => true
  | x :: p', y :: s' => N.eqb x y && startswith p' s'
  | _ :: _, [] => false
  end.

Definition endswith (p s : pystr) : bool := startswith (rev p) (rev s).

(** [s[n:]] and [s[:-n]] for [n > 0]. *)
Definition slice_from (n : nat) (s : pystr) : pystr := skipn n s.
Definition slice_to_minus (n : nat) (s : pystr) : pystr :=
  firstn (List.length s - n) s.

(** [sep.join(parts)] *)
Fixpoint join (sep : pystr) (parts : list pystr) : pystr :=
  match parts with
  | [] => []
  | [p] => p
  | p :: rest => p ++ sep ++ join sep rest
  end.

(** ** Skill-level classifier *)

Module Classifier.

(** [class UserLevel(str, Enum)] *)
Inductive UserLevel : Type := BEGINNER | INTERMEDIATE | ADVANCED.

(** The integer literals of [predict_user_level] are exactly representable
    in binary64, so comparing a float with them is a float comparison. *)
Definition seven : float := 7%float.
Definition four : float := 4%float.
Definition eighty : float := 80%float.

(** [predict_user_level(score, time_taken)], lines 251-257.  [a >= b] is
    [b <= a]; the chained [4 <= score < 7] is a conjunction. *)
Definition predict_user_level (score time_taken : float) : UserLevel :=
  if (seven <=? score)%float && (time_taken <=? eighty)%float then ADVANCED
  else if (four <=? score)%float && (score <? seven)%float then INTERMEDIATE
  else BEGINNER.

(** The value sent to the client: the enum member's string value. *)
Definition level_value (l : UserLevel) : pystr :=
  match l with
  | BEGINNER => py "Beginner"
  | INTERMEDIATE => py "Intermediate"
  | ADVANCED => py "Advanced"
  end.

(** The binary64 value nearest to 80.0001, as Python reads the literal. *)
Definition just_over_eighty : float := 0x1.40001a36e2eb2p+6%float.

End Classifier.

(** *** Facts on binary64 comparison *)

Lemma compare_cont_Eq (a b : positive) :
  Pos.compare_cont Eq a b = Pos.compare a b.
Proof. reflexivity. Qed.

Lemma SFcompare_Lt_swap (x y : spec_float) :
  SFcompare x y = Some Lt -> SFcompare y x = Some Gt.
Proof.
  destruct x as [sx|sx| |sx mx ex], y as [sy|sy| |sy my ey]; simpl;
    try discriminate;
    try (destruct sx; discriminate); try (destruct sy; discriminate);
    try (destruct sx, sy; (discriminate || reflexivity)).
  destruct sx, sy; try discriminate; try reflexivity.
  all: rewrite (Z.compare_antisym ex ey);
    destruct (ex ?= ey)%Z eqn:E; simpl; try discriminate; try reflexivity.
  all: rewrite (compare_cont_Eq mx my), (compare_cont_Eq my mx),
    (Pos.compare_antisym mx my);
    destruct (Pos.compare mx my); simpl; intros H;
      try discriminate; try reflexivity.
Qed.

(** [x < y] excludes [y <= x], also at NaN and at the infinities. *)
Lemma ltb_not_leb (x y : float) :
  (x <? y)%float = true -> (y <=? x)%float = false.
Proof.
  rewrite ltb_spec, leb_spec. unfold SFltb, SFleb.
  destruct (SFcompare (Prim2SF x) (Prim2SF y)) as [[| |]|] eqn:E;
    try discriminate.
  intros _. now rewrite (SFcompare_Lt_swap _ _ E).
Qed.

(** Below 4 is not at least 7: the two constants share the exponent -50. *)
Lemma lt4_not_ge7 (x : spec_float) :
  SFltb x (Prim2SF 4%float) = true -> SFleb (Prim2SF 7%float) x = false.
Proof.
  unfold SFltb, SFleb.
  replace (Prim2SF 4%float)
    with (S754_finite false 4503599627370496 (-50)) by (vm_compute; reflexivity).
  replace (Prim2SF 7%float)
    with (S754_finite false 7881299347898368 (-50)) by (vm_compute; reflexivity).
  destruct x as [s|s| |s m e]; cbn [SFcompare].
  - intros _. reflexivity.
  - destruct s; [intros _; reflexivity | discriminate].
  - discriminate.
  - destruct s; [intros _; reflexivity|].
    rewrite (Z.compare_antisym e (-50)%Z).
    destruct (e ?= -50)%Z; cbn [CompOpp];
      [ | intros _; reflexivity | discriminate].
    rewrite compare_cont_Eq.
    destruct (Pos.compare_spec m 4503599627370496) as [H|H|H];
      try discriminate.
    intros _. rewrite compare_cont_Eq.
    destruct (Pos.compare_spec 7881299347898368 m) as [H'|H'|H'];
      try reflexivity.
    + exfalso. subst m. apply Pos.ltb_lt in H. vm_compute in H. discriminate.
    + exfalso. apply (Pos.lt_irrefl m). eapply Pos.lt_trans; [exact H|].
      eapply Pos.lt_trans; [|exact H']. apply Pos.ltb_lt. vm_compute.
      reflexivity.
Qed.

(** *** The classifier's rule table *)

Section ClassifierSpec.
Import Classifier.

Lemma predict_advanced (score time_taken : float) :
  (seven <=? score)%float = true -> (time_taken <=? eighty)%float = true ->
  predict_user_level score time_taken = ADVANCED.
Proof. unfold predict_user_level. now intros -> ->. Qed.

Lemma predict_intermediate (score time_taken : float) :
  (four <=? score)%float = true -> (score <? seven)%float = true ->
  predict_user_level score time_taken = INTERMEDIATE.
Proof.
  unfold predict_user_level. intros H4 H7.
  now rewrite (ltb_not_leb _ _ H7), H4, H7.
Qed.

Lemma predict_low (score time_taken : float) :
  (score <? four)%float = true ->
  predict_user_level score time_taken = BEGINNER.
Proof.
  unfold predict_user_level. intros H4.
  rewrite (ltb_not_leb _ _ H4).
  assert (H7 : (seven <=? score)%float = false).
  { revert H4. unfold seven, four. rewrite ltb_spec, leb_spec.
    apply lt4_not_ge7. }
  now rewrite H7.
Qed.

Lemma predict_slow (score time_taken : float) :
  (seven <=? score)%float = true -> (eighty <? time_taken)%float = true ->
  predict_user_level score time_taken = BEGINNER.
Proof.
  unfold predict_user_level. intros H7 Ht.
  rewrite (ltb_not_leb _ _ Ht), H7. simpl.
  destruct (score <? seven)%float eqn:E; [|now rewrite andb_false_r].
  apply ltb_not_leb in E. congruence.
Qed.

Lemma predict_otherwise (score time_taken : float) :
  (seven <=? score)%float && (time_taken <=? eighty)%float = false ->
  (four <=? score)%float && (score <? seven)%float = false ->
  predict_user_level score time_taken = BEGINNER.
Proof. unfold predict_user_level. now intros -> ->. Qed.

(** C1.  [predict_user_level] is a total function of two binary64 values:
    score >= 7 with time_taken <= 80 gives Advanced; 4 <= score < 7 gives
    Intermediate whatever the time; score < 4, or score >= 7 with
    time_taken > 80, and every other input, gives Beginner.  At the boundary
    (7.0, 80.0) the result is Advanced, and a score >= 7 with time 80.0001
    is Beginner, not Intermediate. *)
Theorem predict_user_level_rules :
  forall score time_taken : float,
    ((seven <=? score)%float = true -> (time_taken <=? eighty)%float = true ->
     predict_user_level score time_taken = ADVANCED)
    /\ ((four <=? score)%float = true -> (score <? seven)%float = true ->
        predict_user_level score time_taken = INTERMEDIATE)
    /\ ((score <? four)%float = true ->
        predict_user_level score time_taken = BEGINNER)
    /\ ((seven <=? score)%float = true -> (eighty <? time_taken)%float = true ->
        predict_user_level score time_taken = BEGINNER)
    /\ ((seven <=? score)%float && (time_taken <=? eighty)%float = false ->
        (four <=? score)%float && (score <? seven)%float = false ->
        predict_user_level score time_taken = BEGINNER)
    /\ predict_user_level 7%float 80%float = ADVANCED
    /\ ((seven <=? score)%float = true ->
        predict_user_level score just_over_eighty = BEGINNER).
Proof.
  intros score time_taken.
  split; [apply predict_advanced|].
  split; [apply predict_intermediate|].
  split; [apply predict_low|].
  split; [apply predict_slow|].
  split; [apply predict_otherwise|].
  split; [vm_compute; reflexivity|].
  intros H. apply predict_slow; [exact H|]. vm_compute. reflexivity.
Qed.

(** The rule table at the three requests quoted for [/predict-level]. *)
Lemma predict_user_level_rules_witness :
  predict_user_level 8%float 50%float = ADVANCED
  /\ predict_user_level 5%float 200%float = INTERMEDIATE
  /\ predict_user_level 8%float 200%float = BEGINNER
  /\ predict_user_level 3%float 10%float = BEGINNER
  /\ predict_user_level 7%float just_over_eighty = BEGINNER.
Proof.
  destruct (predict_user_level_rules 8%float 50%float) as (A & _).
  destruct (predict_user_level_rules 5%float 200%float) as (_ & I & _).
  destruct (predict_user_level_rules 8%float 200%float)
    as (_ & _ & _ & S & _).
  destruct (predict_user_level_rules 3%float 10%float) as (_ & _ & L & _).
  destruct (predict_user_level_rules 7%float 1%float)
    as (_ & _ & _ & _ & _ & _ & J).
  split; [apply A; vm_compute; reflexivity|].
  split; [apply I; vm_compute; reflexivity|].
  split; [apply S; vm_compute; reflexivity|].
  split; [apply L; vm_compute; reflexivity|].
  apply J; vm_compute; reflexivity.
Defined.

End ClassifierSpec.

(** ** Text repair: fence stripping *)

Module TextRepair.

Definition fence : pystr := py "```".
Definition fence_json : pystr := py "```json".
Definition quotes : pystr := py "'''".

(** [$] under [re.MULTILINE]: at the end of the string or before a newline. *)
Definition at_eol (s : pystr) : bool :=
  match s with
  | [] => true
  | c :: _ => N.eqb c NL
  end.

(** [re.sub(r"^```json|```$", "", s, flags=re.MULTILINE)]: a left-to-right
    scan that deletes every non-overlapping match.  [bol] says whether the
    position is at the start of a line ([^]); [skip] counts the characters of
    the current match still to be deleted.  The first alternative is tried
    first; neither alternative matches the empty string, and the position
    after a match follows a letter or a backtick, so it is no line start. *)
Fixpoint sub_fence (skip : nat) (bol : bool) (s : pystr) : pystr :=
  match s with
  | [] => []
  | c :: rest =>
      match skip with
      | S k => sub_fence k false rest
      | O =>
          if bol && startswith fence_json s then sub_fence 6 false rest
          else if startswith fence s && at_eol (skipn 3 s)
               then sub_fence 2 false rest
          else c :: sub_fence 0 (N.eqb c NL) rest
      end
  end.

(** The first variant (lines 124, 154, 210, 236, 311 and 368):
    [re.sub(...).strip()]. *)
Definition clean_json (text : pystr) : pystr :=
  strip (sub_fence 0 true text).

(** The second variant, lines 449-458 (and 505-514): trim, then drop one
    leading [```json], one trailing [```], one leading ['''] and one
    trailing ['''], each tested on the result of the step before. *)
Definition strip_markers (text : pystr) : pystr :=
  let t := strip text in
  let t := if startswith fence_json t then slice_from 7 t else t in
  let t := if endswith fence t then slice_to_minus 3 t else t in
  let t := if startswith quotes t then slice_from 3 t else t in
  let t := if endswith quotes t then slice_to_minus 3 t else t in
  t.

(** The trimmed remainder, [response_text.strip()] of line 460. *)
Definition clean_quotes (text : pystr) : pystr :=
  strip (strip_markers text).

(** Whether the pattern of [sub_fence] matches somewhere in [s]. *)
Fixpoint has_fence (bol : bool) (s : pystr) : bool :=
  match s with
  | [] => false
  | c :: rest =>
      (bol && startswith fence_json s)
      || (startswith fence s && at_eol (skipn 3 s))
      || has_fence (N.eqb c NL) rest
  end.

(** Whether one of the four tests of [strip_markers] fires on [s]. *)
Definition has_marker (s : pystr) : bool :=
  startswith fence_json s || endswith fence s
  || startswith quotes s || endswith quotes s.

Definition QUOTE : N := 34%N.

(** The reply [```json\n{"a":1}\n```] and its payload [{"a":1}]. *)
Definition fenced_reply : pystr :=
  py "```json" ++ [NL] ++ py "{" ++ [QUOTE] ++ py "a" ++ [QUOTE] ++ py ":1}"
  ++ [NL] ++ py "```".
Definition fenced_payload : pystr :=
  py "{" ++ [QUOTE] ++ py "a" ++ [QUOTE] ++ py ":1}".

(** Two inputs on which one pass leaves a marker behind. *)
Definition six_backticks : pystr := py "``````".
Definition double_fence : pystr := py "```json```json{}".

End TextRepair.

(** *** Trimming *)

Section Trimming.
Variable f : N -> bool.

Definition lstripped (s : pystr) : bool :=
  match s with
  | [] => true
  | c :: _ => negb (f c)
  end.

Definition rstripped (s : pystr) : bool := lstripped (rev s).

Lemma lstrip_by_lstripped (s : pystr) : lstripped (lstrip_by f s) = true.
Proof.
  induction s as [|c s IH]; simpl; [reflexivity|].
  destruct (f c) eqn:E; [exact IH|]. simpl. now rewrite E.
Qed.

Lemma lstrip_by_fixed (s : pystr) : lstripped s = true -> lstrip_by f s = s.
Proof.
  destruct s as [|c s]; simpl; [reflexivity|].
  now destruct (f c).
Qed.

Lemma lstrip_by_idem (s : pystr) :
  lstrip_by f (lstrip_by f s) = lstrip_by f s.
Proof. apply lstrip_by_fixed, lstrip_by_lstripped. Qed.

Lemma rstrip_by_rstripped (s : pystr) : rstripped (rstrip_by f s) = true.
Proof.
  unfold rstripped, rstrip_by. rewrite rev_involutive.
  apply lstrip_by_lstripped.
Qed.

Lemma rstrip_by_fixed (s : pystr) : rstripped s = true -> rstrip_by f s = s.
Proof.
  unfold rstripped, rstrip_by. intros H.
  rewrite (lstrip_by_fixed _ H). apply rev_involutive.
Qed.

(** What [lstrip_by] removes is a prefix of [f]-characters. *)
Lemma lstrip_by_split (s : pystr) :
  exists p, s = p ++ lstrip_by f s /\ forallb f p = true.
Proof.
  induction s as [|c s (p & E & F)]; simpl.
  - now exists [].
  - destruct (f c) eqn:H.
    + exists (c :: p). simpl. rewrite H, F. split; [now f_equal|reflexivity].
    + now exists [].
Qed.

(** Trimming on the right keeps the left end trimmed. *)
Lemma rstrip_by_keeps_lstripped (s : pystr) :
  lstripped s = true -> lstripped (rstrip_by f s) = true.
Proof.
  unfold rstrip_by. intros H.
  destruct (lstrip_by_split (rev s)) as (p & E & F).
  remember (lstrip_by f (rev s)) as t eqn:Et.
  assert (Es : s = rev t ++ rev p).
  { rewrite <- rev_app_distr, <- E. symmetry. apply rev_involutive. }
  destruct (rev t) as [|c r] eqn:Er; [reflexivity|].
  rewrite Es in H. exact H.
Qed.

Lemma strip_by_fixed (s : pystr) :
  lstripped s = true -> rstripped s = true -> strip_by f s = s.
Proof.
  intros L R. unfold strip_by.
  rewrite (lstrip_by_fixed _ L). now apply rstrip_by_fixed.
Qed.

Lemma strip_by_stripped (s : pystr) :
  lstripped (strip_by f s) = true /\ rstripped (strip_by f s) = true.
Proof.
  unfold strip_by. split.
  - apply rstrip_by_keeps_lstripped, lstrip_by_lstripped.
  - apply rstrip_by_rstripped.
Qed.

Lemma strip_by_idem (s : pystr) :
  strip_by f (strip_by f s) = strip_by f s.
Proof.
  destruct (strip_by_stripped s) as [L R]. now apply strip_by_fixed.
Qed.

End Trimming.

Lemma strip_idem (s : pystr) : strip (strip s) = strip s.
Proof. apply strip_by_idem. Qed.

(** *** One pass of the repair, and when a second pass changes nothing *)

Section RepairSpec.
Import TextRepair.

(** Where the pattern has no match, the substitution returns its input. *)
Lemma sub_fence_no_match (s : pystr) :
  forall bol, has_fence bol s = false -> sub_fence 0 bol s = s.
Proof.
  induction s as [|c s IH]; intros bol H; [reflexivity|].
  cbn [has_fence] in H. cbn [sub_fence].
  apply orb_false_iff in H as [H H3].
  apply orb_false_iff in H as [H1 H2].
  rewrite H1, H2. f_equal. now apply IH.
Qed.

Lemma clean_json_fixed (s : pystr) :
  has_fence true s = false -> strip s = s -> clean_json s = s.
Proof.
  intros H S. unfold clean_json. now rewrite (sub_fence_no_match _ _ H).
Qed.

Lemma strip_markers_fixed (s : pystr) :
  has_marker s = false -> strip s = s -> strip_markers s = s.
Proof.
  unfold has_marker, strip_markers. intros H S. rewrite S.
  apply orb_false_iff in H as [H H4].
  apply orb_false_iff in H as [H H3].
  apply orb_false_iff in H as [H1 H2].
  cbv zeta. now rewrite H1, H2, H3, H4.
Qed.

Lemma clean_quotes_fixed (s : pystr) :
  has_marker s = false -> strip s = s -> clean_quotes s = s.
Proof.
  intros H S. unfold clean_quotes. now rewrite (strip_markers_fixed _ H S).
Qed.

(** C2, as the code has it.  A string with no fence match and no outer
    whitespace is a fixed point of the first variant, so the first variant
    is idempotent at every input whose repaired text has no fence match
    left; likewise for the second variant and its four markers.  Both
    variants turn the fenced reply [```json\n{"a":1}\n```] into [{"a":1}]. *)
Theorem repair_idempotent_when_clean :
  (forall s, has_fence true s = false -> strip s = s -> clean_json s = s)
  /\ (forall x, has_fence true (clean_json x) = false ->
                clean_json (clean_json x) = clean_json x)
  /\ (forall s, has_marker s = false -> strip s = s -> clean_quotes s = s)
  /\ (forall x, has_marker (clean_quotes x) = false ->
                clean_quotes (clean_quotes x) = clean_quotes x)
  /\ clean_json fenced_reply = fenced_payload
  /\ clean_quotes fenced_reply = fenced_payload.
Proof.
  split; [exact clean_json_fixed|].
  split.
  { intros x H. apply clean_json_fixed; [exact H|]. apply strip_idem. }
  split; [exact clean_quotes_fixed|].
  split.
  { intros x H. apply clean_quotes_fixed; [exact H|]. apply strip_idem. }
  split; vm_compute; reflexivity.
Qed.

(** The hypotheses of [repair_idempotent_when_clean] at the fenced reply. *)
Lemma repair_idempotent_when_clean_witness :
  clean_json (clean_json fenced_reply) = clean_json fenced_reply
  /\ clean_quotes (clean_quotes fenced_reply) = clean_quotes fenced_reply.
Proof.
  destruct repair_idempotent_when_clean as (_ & J & _ & Q & _).
  split; [apply J | apply Q]; vm_compute; reflexivity.
Defined.

(** C2, as stated, fails: on six backticks the first variant returns three
    backticks and then the empty string; on [```json```json{}] the second
    variant returns [```json{}] and then [{}]. *)
Lemma repair_not_idempotent :
  ~ (forall x, clean_json (clean_json x) = clean_json x)
  /\ ~ (forall x, clean_quotes (clean_quotes x) = clean_quotes x)
  /\ clean_json six_backticks = fence
  /\ clean_json fence = []
  /\ clean_quotes double_fence = py "```json{}"
  /\ clean_quotes (py "```json{}") = py "{}".
Proof.
  split; [|split].
  - intros H. specialize (H six_backticks). vm_compute in H. discriminate.
  - intros H. specialize (H double_fence). vm_compute in H. discriminate.
  - repeat split; vm_compute; reflexivity.
Qed.

End RepairSpec.

(** ** JSON values and the Python operations the handlers apply to them *)

(** What [json.loads] returns: [None], [bool], [int], [float], [str],
    [list] and [dict] (keys are strings, in insertion order). *)
Inductive json : Type :=
| JNull
| JBool (b : bool)
| JInt (z : Z)
| JFloat (x : float)
| JStr (s : pystr)
| JArr (items : list json)
| JObj (fields : list (pystr * json)).

(** The exceptions the handlers raise or catch.  All of them derive from
    [Exception]; [LibraryError] stands for whatever else a client library
    raises (connection errors, HTTP errors, quota errors, parser errors). *)
Inductive exn : Type :=
| HTTPException (status_code : Z) (detail : pystr)
| Timeout
| JSONDecodeError
| ValueError (msg : pystr)
| KeyError (key : pystr)
| IndexError
| TypeError
| AttributeError
| LibraryError (tag : N).

Inductive res (A : Type) : Type :=
| Ok (a : A)
| Raise (e : exn).
Arguments Ok {A} a.
Arguments Raise {A} e.

Definition is_ok {A} (r : res A) : bool :=
  match r with Ok _ => true | Raise _ => false end.

(** The status FastAPI answers with: 200 for a returned value, the status of
    an [HTTPException], and 500 for any other exception. *)
Definition http_status {A} (r : res A) : Z :=
  match r with
  | Ok _ => 200
  | Raise (HTTPException s _) => s
  | Raise _ => 500
  end%Z.

Module Py.

(** [d[k]] and [d[k] = v] on a [dict]. *)
Fixpoint dict_get (k : pystr) (d : list (pystr * json)) : option json :=
  match d with
  | [] => None
  | (k', v) :: rest => if pystr_eqb k k' then Some v else dict_get k rest
  end.

Fixpoint dict_set (k : pystr) (v : json) (d : list (pystr * json))
  : list (pystr * json) :=
  match d with
  | [] => [(k, v)]
  | (k', v') :: rest =>
      if pystr_eqb k k' then (k', v) :: rest else (k', v') :: dict_set k v rest
  end.

(** [x[k]] for a string key [k]: only a [dict] accepts one. *)
Definition getitem (x : json) (k : pystr) : res json :=
  match x with
  | JObj d => match dict_get k d with Some v => Ok v | None => Raise (KeyError k) end
  | _ => Raise TypeError
  end.

(** [x[0]] *)
Definition getitem0 (x : json) : res json :=
  match x with
  | JArr (v :: _) => Ok v
  | JArr [] => Raise IndexError
  | JStr (c :: _) => Ok (JStr [c])
  | JStr [] => Raise IndexError
  | JObj _ => Raise (KeyError (py "0"))
  | _ => Raise TypeError
  end.

(** [x[k] = v] *)
Definition setitem (x : json) (k : pystr) (v : json) : res json :=
  match x with
  | JObj d => Ok (JObj (dict_set k v d))
  | _ => Raise TypeError
  end.

(** [len(x)] *)
Definition len (x : json) : res nat :=
  match x with
  | JArr l => Ok (List.length l)
  | JStr s => Ok (List.length s)
  | JObj d => Ok (List.length d)
  | _ => Raise TypeError
  end.

(** [p in s] on strings. *)
Fixpoint is_infix (p s : pystr) : bool :=
  startswith p s
  || match s with
     | [] => false
     | _ :: rest => is_infix p rest
     end.

Definition is_str (k : pystr) (v : json) : bool :=
  match v with JStr s => pystr_eqb k s | _ => false end.

(** [k in x] for a string [k]. *)
Definition contains (k : pystr) (x : json) : res bool :=
  match x with
  | JObj d => Ok (match dict_get k d with Some _ => true | None => false end)
  | JArr l => Ok (existsb (is_str k) l)
  | JStr s => Ok (is_infix k s)
  | _ => Raise TypeError
  end.

(** The elements [for u in x] visits. *)
Definition iter (x : json) : res (list json) :=
  match x with
  | JArr l => Ok l
  | JStr s => Ok (map (fun c => JStr [c]) s)
  | JObj d => Ok (map (fun kv => JStr (fst kv)) d)
  | _ => Raise TypeError
  end.

Fixpoint all_str (l : list json) : option (list pystr) :=
  match l with
  | [] => Some []
  | JStr s :: rest =>
      match all_str rest with Some r => Some (s :: r) | None => None end
  | _ :: _ => None
  end.

(** [sep.join(x)]: every element visited must be a [str]. *)
Definition join_json (sep : pystr) (x : json) : res pystr :=
  match iter x with
  | Raise e => Raise e
  | Ok l =>
      match all_str l with
      | Some parts => Ok (join sep parts)
      | None => Raise TypeError
      end
  end.

(** [x.get(k, default)]: a method of [dict] only. *)
Definition get_default (x : json) (k : pystr) (default : json) : res json :=
  match x with
  | JObj d => Ok (match dict_get k d with Some v => v | None => default end)
  | _ => Raise AttributeError
  end.

(** Truth value of [not x] for a list. *)
Definition is_empty {A} (l : list A) : bool :=
  match l with [] => true | _ => false end.

(** ASCII part of [str.lower]. *)
Definition ascii_lower (c : N) : N :=
  if ((65 <=? c) && (c <=? 90))%N then (c + 32)%N else c.

Definition is_ascii (s : pystr) : bool := forallb (fun c => (c <? 128)%N) s.

(** What follows the last occurrence of [sep] in [s], or the fallback
    [acc] when [sep] does not occur. *)
Fixpoint after_last_from (sep : N) (acc : pystr) (s : pystr) : pystr :=
  match s with
  | [] => acc
  | c :: rest =>
      if N.eqb c sep then after_last_from sep rest rest
      else after_last_from sep acc rest
  end.

(** [os.path.basename(p)]: what follows the last slash. *)
Definition basename (p : pystr) : pystr := after_last_from 47 p p.

(** [s.split(".")[-1]]: what follows the last dot, or [s] without one. *)
Definition last_field (s : pystr) : pystr := after_last_from 46 s s.

End Py.

(** ** Computations: exceptions over a threaded world *)

Definition M (W A : Type) : Type := W -> res A * W.

Definition ret {W A} (a : A) : M W A := fun w => (Ok a, w).
Definition raise {W A} (e : exn) : M W A := fun w => (Raise e, w).
Definition lift {W A} (r : res A) : M W A := fun w => (r, w).

Definition bind {W A B} (m : M W A) (k : A -> M W B) : M W B :=
  fun w =>
    match m w with
    | (Ok a, w') => k a w'
    | (Raise e, w') => (Raise e, w')
    end.

(** [try: m  except <class> as e: h e], where [caught] tells the class. *)
Definition try_except {W A} (m : M W A) (caught : exn -> bool)
  (h : exn -> M W A) : M W A :=
  fun w =>
    match m w with
    | (Ok a, w') => (Ok a, w')
    | (Raise e, w') => if caught e then h e w' else (Raise e, w')
    end.

Definition any_exception (e : exn) : bool := true.
Definition is_timeout (e : exn) : bool :=
  match e with Timeout => true | _ => false end.
Definition is_json_decode_error (e : exn) : bool :=
  match e with JSONDecodeError => true | _ => false end.

Declare Scope py_scope.
Delimit Scope py_scope with py_m.
Notation "x <- m ;; k" := (bind m (fun x => k))
  (at level 61, m at next level, right associativity) : py_scope.
Notation "m ;;; k" := (bind m (fun _ => k))
  (at level 61, right associativity) : py_scope.
Local Open Scope py_scope.

(** ** Request models and external collaborators *)

(** [class DifficultyLevel(str, Enum)] *)
Inductive DifficultyLevel : Type := EASY | MEDIUM | HARD.

Record CourseRequest : Type := {
  subject : pystr;
  difficulty : DifficultyLevel;
  focus_area : pystr;
  units : Z
}.

(** The constraint [Field(..., ge=1, le=10)] on [units]. *)
Definition valid_course_request (r : CourseRequest) : Prop :=
  (1 <= units r <= 10)%Z.

Record QuizResult : Type := {
  score : float;
  time_taken : float
}.

(** [Field(..., ge=0, le=9)] on [score] and [Field(..., gt=0)] on
    [time_taken]. *)
Definition valid_quiz_result (q : QuizResult) : bool :=
  ((0 <=? score q) && (score q <=? 9) && (0 <? time_taken q))%float.

(** What [requests.get] returns: the status and the body. *)
Record response : Type := {
  status_code : Z;
  content : list N
}.

(** The services and libraries the handlers call, and the prompt templates.
    [generate_content p] is [model.generate_content(p).text]; the two
    clients may raise anything and may answer differently at each call, so
    they act on a world.  The parsers are functions of their input.  A
    prompt template is the text of an f-string as a function of the values
    formatted into it. *)
Record Env : Type := {
  World : Type;
  generate_content : pystr -> M World pystr;
  requests_get : pystr -> M World response;
  json_loads : pystr -> option json;
  response_json : response -> option json;
  json_repr : json -> pystr;
  exn_str : exn -> pystr;
  unicode_lower : pystr -> pystr;
  docx_paragraphs : list N -> res (list pystr);
  pdf_pages : list N -> res (list (option pystr));
  pptx_shape_texts : list N -> res (list pystr);
  YOUTUBE_API_KEY : pystr;
  content_prompt :
    pystr -> pystr -> pystr -> pystr -> DifficultyLevel -> pystr -> pystr;
  unit_prompt : pystr -> pystr -> DifficultyLevel -> pystr -> pystr;
  mcq_prompt : pystr -> pystr -> DifficultyLevel -> pystr -> pystr;
  mcq_unit_prompt : pystr -> pystr -> DifficultyLevel -> pystr -> pystr;
  structure_prompt : CourseRequest -> pystr;
  doubt_prompt : pystr -> pystr;
  recommendation_prompt : pystr -> pystr -> pystr;
  domain_prompt : pystr -> pystr
}.

(** ** The handlers *)

Section Service.
Variable E : Env.
Import TextRepair.

Local Abbreviation W := (World E).

(** [str(v)], as an f-string formats [v]: a [str] is inserted as it is. *)
Definition py_str (v : json) : pystr :=
  match v with
  | JStr s => s
  | _ => json_repr E v
  end.

(** [json.loads(s)] *)
Definition loads (s : pystr) : res json :=
  match json_loads E s with
  | Some v => Ok v
  | None => Raise JSONDecodeError
  end.

Definition HTTP_ERROR : N := 1%N.

(** [response.raise_for_status()] *)
Definition raise_for_status (r : response) : res unit :=
  if ((400 <=? status_code r) && (status_code r <? 600))%Z
  then Raise (LibraryError HTTP_ERROR) else Ok tt.

(** [response.json()] *)
Definition json_of_response (r : response) : res json :=
  match response_json E r with
  | Some v => Ok v
  | None => Raise JSONDecodeError
  end.

Definition youtube_api_url (query : pystr) : pystr :=
  py "https://www.googleapis.com/youtube/v3/search?part=snippet&maxResults=1&q="
  ++ query ++ py "&type=video&key=" ++ YOUTUBE_API_KEY E.

Definition watch_url (video_id : json) : pystr :=
  py "https://www.youtube.com/watch?v=" ++ py_str video_id.

Definition NO_VIDEO : pystr := py "No relevant video found.".
Definition FETCH_TIMEOUT : pystr := py "YouTube fetch timeout.".
Definition FETCH_ERROR : pystr := py "Error fetching video.".

(** [has_items data]: ["items" in data and len(data["items"]) > 0]. *)
Definition has_items (data : json) : res bool :=
  match Py.contains (py "items") data with
  | Raise e => Raise e
  | Ok false => Ok false
  | Ok true =>
      match Py.getitem data (py "items") with
      | Raise e => Raise e
      | Ok items =>
          match Py.len items with
          | Raise e => Raise e
          | Ok n => Ok (0 <? n)%nat
          end
      end
  end.

(** The [try] block of [fetch_youtube_video], lines 85-91. *)
Definition youtube_try (query : pystr) : M W pystr :=
  r <- requests_get E (youtube_api_url query) ;;
  lift (raise_for_status r) ;;;
  data <- lift (json_of_response r) ;;
  found <- lift (has_items data) ;;
  if found then
    items <- lift (Py.getitem data (py "items")) ;;
    first <- lift (Py.getitem0 items) ;;
    id <- lift (Py.getitem first (py "id")) ;;
    video_id <- lift (Py.getitem id (py "videoId")) ;;
    ret (watch_url video_id)
  else ret NO_VIDEO.

(** [fetch_youtube_video(query)], lines 80-96: the first matching [except]
    clause answers. *)
Definition fetch_youtube_video (query : pystr) : M W pystr :=
  try_except (youtube_try query) any_exception
    (fun e => if is_timeout e then ret FETCH_TIMEOUT else ret FETCH_ERROR).

Definition COMMA : pystr := py ", ".

(** [generate_unit_content], lines 98-132.  The prompt is formatted before
    the [try], so a missing key or a value that cannot be joined raises
    unwrapped. *)
Definition generate_unit_content (unit_data : json) (subj : pystr)
  (diff : DifficultyLevel) (focus : pystr) : M W json :=
  title <- lift (Py.getitem unit_data (py "unitTitle")) ;;
  topics_v <- lift (Py.getitem unit_data (py "topicsCovered")) ;;
  topics <- lift (Py.join_json COMMA topics_v) ;;
  objectives_v <- lift (Py.getitem unit_data (py "learningObjectives")) ;;
  objectives <- lift (Py.join_json COMMA objectives_v) ;;
  let prompt :=
    content_prompt E (py_str title) subj topics objectives diff focus in
  try_except
    (text <- generate_content E prompt ;;
     lift (loads (clean_json text)))
    any_exception
    (fun e =>
       raise (HTTPException 500
                (py "Failed to generate content for unit " ++ py_str title
                 ++ py ": " ++ exn_str E e))).

Definition SPACE : pystr := py " ".

(** [get_unit_details], lines 134-174. *)
Definition get_unit_details (unit_title : json) (subj : pystr)
  (diff : DifficultyLevel) (focus : pystr) : M W json :=
  let prompt := unit_prompt E (py_str unit_title) subj diff focus in
  try_except
    (raw_response <- generate_content E prompt ;;
     let cleaned_json := clean_json raw_response in
     unit_data <-
       try_except (lift (loads cleaned_json)) is_json_decode_error
         (fun e =>
            raise (ValueError
                     (py "JSON parsing error for " ++ py_str unit_title
                      ++ py ": " ++ exn_str E e))) ;;
     detailed_content <- generate_unit_content unit_data subj diff focus ;;
     unit_data <-
       lift (Py.setitem unit_data (py "detailedContent") detailed_content) ;;
     let youtube_query :=
       py_str unit_title ++ SPACE ++ subj ++ SPACE ++ focus in
     youtube_video_url <- fetch_youtube_video youtube_query ;;
     unit_data <-
       lift (Py.setitem unit_data (py "youtube_video_url")
               (JStr youtube_video_url)) ;;
     ret unit_data)
    any_exception
    (fun e =>
       raise (HTTPException 500
                (py "Failed to generate unit details for "
                 ++ py_str unit_title ++ py ": " ++ exn_str E e))).

(** [generate_mcqs], lines 176-218: the reply is parsed and returned as it
    is. *)
Definition generate_mcqs (unit_data : json) (subj : pystr)
  (diff : DifficultyLevel) (focus : pystr) : M W json :=
  title <- lift (Py.getitem unit_data (py "unitTitle")) ;;
  let prompt := mcq_prompt E (py_str title) subj diff focus in
  try_except
    (text <- generate_content E prompt ;;
     lift (loads (clean_json text)))
    any_exception
    (fun e =>
       raise (HTTPException 500
                (py "Failed to generate MCQs for unit " ++ py_str title
                 ++ py ": " ++ exn_str E e))).

(** [get_unit_details_with_mcqs], lines 220-249. *)
Definition get_unit_details_with_mcqs (unit_title : json) (subj : pystr)
  (diff : DifficultyLevel) (focus : pystr) : M W json :=
  let prompt := mcq_unit_prompt E (py_str unit_title) subj diff focus in
  try_except
    (text <- generate_content E prompt ;;
     unit_data <- lift (loads (clean_json text)) ;;
     unit_mcqs <- generate_mcqs unit_data subj diff focus ;;
     unit_data <- lift (Py.setitem unit_data (py "assessment") unit_mcqs) ;;
     ret unit_data)
    any_exception
    (fun e =>
       raise (HTTPException 500
                (py "Failed to generate unit details for "
                 ++ py_str unit_title ++ py ": " ++ exn_str E e))).

Definition NO_UNITS : pystr := py "Failed to generate any unit details".

(** One iteration of the loop of [generate_course], lines 316-326.  The
    handler formats [unit['unitTitle']] into its log line before it
    continues. *)
Definition course_step (request : CourseRequest) (unit : json)
  (detailed_units : list json) : M W (list json) :=
  try_except
    (title <- lift (Py.getitem unit (py "unitTitle")) ;;
     unit_details <-
       get_unit_details title (subject request) (difficulty request)
         (focus_area request) ;;
     ret (detailed_units ++ [unit_details]))
    any_exception
    (fun e =>
       lift (Py.getitem unit (py "unitTitle")) ;;;
       ret detailed_units).

Fixpoint course_loop (request : CourseRequest) (stubs : list json)
  (detailed_units : list json) : M W (list json) :=
  match stubs with
  | [] => ret detailed_units
  | unit :: rest =>
      acc <- course_step request unit detailed_units ;;
      course_loop request rest acc
  end.

(** [POST /generate-course], lines 284-339. *)
Definition generate_course (request : CourseRequest) : M W json :=
  try_except
    (text <- generate_content E (structure_prompt E request) ;;
     course_structure <- lift (loads (clean_json text)) ;;
     units_v <- lift (Py.getitem course_structure (py "units")) ;;
     stubs <- lift (Py.iter units_v) ;;
     detailed_units <- course_loop request stubs [] ;;
     if Py.is_empty detailed_units then raise (HTTPException 500 NO_UNITS)
     else
       lift (Py.setitem course_structure (py "units") (JArr detailed_units)))
    any_exception
    (fun e => raise (HTTPException 500 (exn_str E e))).

(** The comprehension of lines 371-378 reads every title before any
    coroutine runs. *)
Fixpoint read_titles (stubs : list json) : res (list json) :=
  match stubs with
  | [] => Ok []
  | unit :: rest =>
      match Py.getitem unit (py "unitTitle") with
      | Raise e => Raise e
      | Ok t =>
          match read_titles rest with
          | Raise e => Raise e
          | Ok ts => Ok (t :: ts)
          end
      end
  end.

(** [asyncio.gather] with [return_exceptions=True]: one outcome per
    task, at the task's position.  The coroutines of this program never
    suspend (their calls to the model block), so each task runs to its end
    before the next one starts. *)
Fixpoint gather {A} (tasks : list (M W A)) (w : W) : list (res A) * W :=
  match tasks with
  | [] => ([], w)
  | t :: rest =>
      let (r, w1) := t w in
      let (rs, w2) := gather rest w1 in
      (r :: rs, w2)
  end.

(** [[u for u in results if not isinstance(u, Exception)]] *)
Fixpoint successes {A} (results : list (res A)) : list A :=
  match results with
  | [] => []
  | Ok a :: rest => a :: successes rest
  | Raise _ :: rest => successes rest
  end.

Definition mcq_tasks (request : CourseRequest) (titles : list json)
  : list (M W json) :=
  map (fun t =>
         get_unit_details_with_mcqs t (subject request) (difficulty request)
           (focus_area request)) titles.

(** [POST /generate-question], lines 341-396. *)
Definition generate_question (request : CourseRequest) : M W json :=
  try_except
    (text <- generate_content E (structure_prompt E request) ;;
     course_structure <- lift (loads (clean_json text)) ;;
     units_v <- lift (Py.getitem course_structure (py "units")) ;;
     stubs <- lift (Py.iter units_v) ;;
     titles <- lift (read_titles stubs) ;;
     detailed_units <- (fun w =>
        let (rs, w') := gather (mcq_tasks request titles) w in (Ok rs, w')) ;;
     course_structure <-
       lift (Py.setitem course_structure (py "units")
               (JArr (successes detailed_units))) ;;
     if Py.is_empty (successes detailed_units)
     then raise (HTTPException 500 NO_UNITS)
     else ret course_structure)
    any_exception
    (fun e => raise (HTTPException 500 (exn_str E e))).

End Service.

Section Endpoints.
Variable E : Env.
Import TextRepair.

Local Abbreviation W := (World E).

(** [s.lower()]: on an ASCII string the letters A-Z are mapped to a-z; the
    Unicode case mapping decides the rest. *)
Definition py_lower (s : pystr) : pystr :=
  if Py.is_ascii s then map Py.ascii_lower s else unicode_lower E s.

(** [filename.split(".")[-1].lower()] *)
Definition file_extension (filename : pystr) : pystr :=
  py_lower (Py.last_field filename).

Definition UNSUPPORTED : pystr := py "Unsupported file type.".
Definition EMPTY_CONTENT : pystr := py "Extracted content is empty.".
Definition DOWNLOAD_FAILED : pystr := py "Failed to download file.".
Definition NOT_JSON : pystr :=
  py "Gemini response is not in valid JSON format.".

(** Texts of the pages for which [extract_text()] is truthy. *)
Fixpoint page_texts (pages : list (option pystr)) : list pystr :=
  match pages with
  | [] => []
  | Some (c :: t) :: rest => (c :: t) :: page_texts rest
  | _ :: rest => page_texts rest
  end.

(** The dispatch on the extension, lines 480-491. *)
Definition extract_content (ext : pystr) (file_content : list N) : res pystr :=
  if pystr_eqb ext (py "docx") then
    match docx_paragraphs E file_content with
    | Ok paragraphs => Ok (join [NL] paragraphs)
    | Raise e => Raise e
    end
  else if pystr_eqb ext (py "pdf") then
    match pdf_pages E file_content with
    | Ok pages => Ok (join [NL] (page_texts pages))
    | Raise e => Raise e
    end
  else if pystr_eqb ext (py "pptx") then
    match pptx_shape_texts E file_content with
    | Ok texts => Ok (join [NL] texts)
    | Raise e => Raise e
    end
  else Raise (HTTPException 400 UNSUPPORTED).

Definition UNKNOWN : json := JStr (py "Unknown").
Definition NO_EXPLANATION : json := JStr (py "No explanation provided.").

(** The answer of lines 521-526, its values computed in order. *)
Definition domain_response (filename : pystr) (result : json) : res json :=
  match Py.get_default result (py "domain") UNKNOWN with
  | Raise e => Raise e
  | Ok d =>
      match Py.get_default result (py "subdomain") UNKNOWN with
      | Raise e => Raise e
      | Ok s =>
          match Py.get_default result (py "explanation") NO_EXPLANATION with
          | Raise e => Raise e
          | Ok x =>
              Ok (JObj [(py "filename", JStr filename); (py "domain", d);
                        (py "subdomain", s); (py "explanation", x)])
          end
      end
  end.

(** [POST /detect-domain-from-file], lines 469-529.  Everything, the
    [raise HTTPException(status_code=400, ...)] statements included, stands
    inside the [try] whose handler is [except Exception]. *)
Definition detect_domain_from_file (file_url : pystr) : M W json :=
  try_except
    (r <- requests_get E file_url ;;
     if negb (status_code r =? 200)%Z
     then raise (HTTPException 400 DOWNLOAD_FAILED)
     else
       let filename := Py.basename file_url in
       let ext := file_extension filename in
       text <- lift (extract_content ext (content r)) ;;
       if Py.is_empty (strip text)
       then raise (HTTPException 400 EMPTY_CONTENT)
       else
         reply <- generate_content E (domain_prompt E text) ;;
         let response_text := strip_markers reply in
         result <-
           try_except (lift (loads E response_text)) is_json_decode_error
             (fun _ => raise (HTTPException 500 NOT_JSON)) ;;
         lift (domain_response filename result))
    any_exception
    (fun e => raise (HTTPException 500 (exn_str E e))).

Definition is_bracket (c : N) : bool := N.eqb c 91 || N.eqb c 93.

(** Line 460: [f"[{response_text.strip().strip('[]')}]"]. *)
Definition as_list_text (response_text : pystr) : pystr :=
  py "[" ++ strip_by is_bracket (strip response_text) ++ py "]".

(** [POST /course-recommendation], lines 406-467: a decoding error and
    any other exception have a handler each. *)
Definition recommend_course (student_level course : pystr) : M W json :=
  let prompt := recommendation_prompt E student_level course in
  try_except
    (reply <- generate_content E prompt ;;
     let response_text := as_list_text (strip_markers reply) in
     recommendations <- lift (loads E response_text) ;;
     ret (JObj [(py "recommendations", recommendations)]))
    any_exception
    (fun e =>
       if is_json_decode_error e
       then raise (HTTPException 500
                     (py "Failed to parse recommendations: " ++ exn_str E e))
       else raise (HTTPException 500
                     (py "An unexpected error occurred: " ++ exn_str E e))).

(** [POST /predict-level], lines 398-404. *)
Definition predict_level (quiz_result : QuizResult)
  : M W Classifier.UserLevel :=
  try_except
    (ret (Classifier.predict_user_level (score quiz_result)
            (time_taken quiz_result)))
    any_exception
    (fun e =>
       raise (HTTPException 500 (py "Prediction error: " ++ exn_str E e))).

(** [POST /doubt-chatbot], lines 273-282: no handler. *)
Definition doubt_chatbot (ques : pystr) : M W json :=
  reply <- generate_content E (doubt_prompt E ques) ;;
  ret (JObj [(py "answer", JStr reply)]).

(** [GET /], lines 259-271. *)
Definition root : json :=
  JObj [(py "message", JStr (py "Full Course Generator API"));
        (py "endpoints",
         JArr [JStr (py "/generate-course"); JStr (py "/doubt-chatbot");
               JStr (py "/generate-question"); JStr (py "/predict-level");
               JStr (py "/course-recommendation");
               JStr (py "/detect-domain-from-file")])].

End Endpoints.

(** ** A scripted environment

    Test doubles for the collaborators: the model and the HTTP client answer
    from a script, [json.loads] is the inverse of a compact serialiser on a
    finite set of values, and the document parsers read the body as one
    text. *)

Module Demo.

Record script : Type := {
  model_replies : list (res pystr);
  http_replies : list (res response)
}.

Definition next_model (p : pystr) : M script pystr :=
  fun w =>
    match model_replies w with
    | [] => (Raise (LibraryError 0), w)
    | r :: rest =>
        (r, {| model_replies := rest; http_replies := http_replies w |})
    end.

Definition next_http (url : pystr) : M script response :=
  fun w =>
    match http_replies w with
    | [] => (Raise (LibraryError 0), w)
    | r :: rest =>
        (r, {| model_replies := model_replies w; http_replies := rest |})
    end.

Definition quoted (s : pystr) : pystr :=
  [TextRepair.QUOTE] ++ s ++ [TextRepair.QUOTE].

(** [json.dumps(v, separators=(",", ":"))] on values whose strings need no
    escape; the values of the scripts hold no number, and one would be
    written as a zero. *)
Fixpoint dumps (v : json) : pystr :=
  match v with
  | JNull => py "null"
  | JBool true => py "true"
  | JBool false => py "false"
  | JInt z => py "0"
  | JFloat _ => py "0.0"
  | JStr s => quoted s
  | JArr l =>
      py "["
      ++ (fix items (l : list json) : pystr :=
            match l with
            | [] => []
            | [x] => dumps x
            | x :: rest => dumps x ++ py "," ++ items rest
            end) l
      ++ py "]"
  | JObj d =>
      py "{"
      ++ (fix fields (d : list (pystr * json)) : pystr :=
            match d with
            | [] => []
            | [(k, x)] => quoted k ++ py ":" ++ dumps x
            | (k, x) :: rest =>
                quoted k ++ py ":" ++ dumps x ++ py "," ++ fields rest
            end) d
      ++ py "}"
  end.

Definition stub (title : string) : json := JObj [(py "unitTitle", JStr (py title))].

Definition skeleton : json :=
  JObj [(py "courseTitle", JStr (py "Course"));
        (py "units", JArr [stub "A"; stub "B"; stub "C"]);
        (py "overview", JStr (py "About"))].

Definition unit_detail : json :=
  JObj [(py "unitTitle", JStr (py "A"));
        (py "topicsCovered", JArr [JStr (py "t1"); JStr (py "t2")]);
        (py "learningObjectives", JArr [JStr (py "o1")])].

Definition topic_contents : json := JObj [(py "topicContents", JArr [])].

Definition empty_object : json := JObj [].

Definition null_domain : json := JObj [(py "domain", JNull)].

Definition search_hit : json :=
  JObj [(py "items",
         JArr [JObj [(py "id", JObj [(py "videoId", JStr (py "abc123"))])]])].

(** Skeletons the model should not send: a stub without a title, no
    [units] at all, and no stub. *)
Definition broken_skeleton : json :=
  JObj [(py "units", JArr [stub "A"; empty_object; stub "C"])].
Definition no_units_skeleton : json :=
  JObj [(py "courseTitle", JStr (py "Course"))].
Definition empty_units_skeleton : json := JObj [(py "units", JArr [])].

Definition known_values : list json :=
  [skeleton; unit_detail; topic_contents; empty_object; null_domain;
   search_hit; stub "A"; stub "B"; stub "C";
   JArr [JObj [(py "subject", JStr (py "Python"))]];
   broken_skeleton; no_units_skeleton; empty_units_skeleton].

Definition demo_loads (s : pystr) : option json :=
  find (fun v => pystr_eqb (dumps v) s) known_values.

Definition demo_str (e : exn) : pystr :=
  match e with
  | HTTPException _ d => d
  | ValueError m => m
  | KeyError k => k
  | _ => py "error"
  end.

Definition env : Env := {|
  World := script;
  generate_content := next_model;
  requests_get := next_http;
  json_loads := demo_loads;
  response_json := fun r => demo_loads (content r);
  json_repr := dumps;
  exn_str := demo_str;
  unicode_lower := fun s => s;
  docx_paragraphs := fun b => Ok [b];
  pdf_pages := fun b => Ok [Some b];
  pptx_shape_texts := fun b => Ok [b];
  YOUTUBE_API_KEY := py "KEY";
  content_prompt := fun t s tp o d f => py "content:" ++ t;
  unit_prompt := fun t s d f => py "unit:" ++ t;
  mcq_prompt := fun t s d f => py "mcq:" ++ t;
  mcq_unit_prompt := fun t s d f => py "mcq-unit:" ++ t;
  structure_prompt := fun r => py "structure:" ++ subject r;
  doubt_prompt := fun q => py "doubt:" ++ q;
  recommendation_prompt := fun l c => py "recommend:" ++ c;
  domain_prompt := fun c => py "domain:" ++ c
|}.

Definition request3 : CourseRequest :=
  {| subject := py "Python"; difficulty := EASY;
     focus_area := py "Basics"; units := 3 |}.

Definition model_says (replies : list (res pystr)) : script :=
  {| model_replies := replies; http_replies := [] |}.

Definition fenced (v : json) : pystr :=
  py "```json" ++ [NL] ++ dumps v ++ [NL] ++ py "```".

End Demo.

(** ** Video lookup *)

Ltac run_m := unfold bind, try_except, lift, ret, raise; cbn beta iota.

Section VideoLookup.
Variable E : Env.

Lemma fetch_returns (q : pystr) (w : World E) :
  exists s w', fetch_youtube_video E q w = (Ok s, w').
Proof.
  unfold fetch_youtube_video, try_except.
  destruct (youtube_try E q w) as [[s|e] w'].
  - now exists s, w'.
  - destruct (is_timeout e); [now exists FETCH_TIMEOUT, w'|].
    now exists FETCH_ERROR, w'.
Qed.





End VideoLookup.


(** ** Dictionaries, batches and titles *)

Lemma pystr_eqb_eq (a b : pystr) : pystr_eqb a b = true <-> a = b.
Proof.
  revert b. induction a as [|x a IH]; intros [|y b]; simpl;
    try (split; [discriminate|discriminate]); [tauto|].
  rewrite andb_true_iff, N.eqb_eq, IH. split.
  - now intros [-> ->].
  - intros H. now inversion H.
Qed.

Lemma pystr_eqb_refl (a : pystr) : pystr_eqb a a = true.
Proof. now apply pystr_eqb_eq. Qed.

Lemma pystr_eqb_neq (a b : pystr) : a <> b -> pystr_eqb a b = false.
Proof.
  intros H. destruct (pystr_eqb a b) eqn:E; [|reflexivity].
  now apply pystr_eqb_eq in E.
Qed.

Lemma dict_get_set_same (k : pystr) (v : json) (d : list (pystr * json)) :
  Py.dict_get k (Py.dict_set k v d) = Some v.
Proof.
  induction d as [|[k' v'] d IH]; simpl.
  - now rewrite pystr_eqb_refl.
  - destruct (pystr_eqb k k') eqn:K; simpl; now rewrite K.
Qed.

Lemma dict_get_set_other (k k0 : pystr) (v : json) (d : list (pystr * json)) :
  k <> k0 -> Py.dict_get k (Py.dict_set k0 v d) = Py.dict_get k d.
Proof.
  intros N. induction d as [|[k' v'] d IH]; simpl.
  - now rewrite (pystr_eqb_neq k k0 N).
  - destruct (pystr_eqb k0 k') eqn:K; simpl.
    + apply pystr_eqb_eq in K. subst k'. now rewrite (pystr_eqb_neq k k0 N).
    + now rewrite IH.
Qed.

Lemma dict_set_keys (k : pystr) (v x : json) (d : list (pystr * json)) :
  Py.dict_get k d = Some x -> map fst (Py.dict_set k v d) = map fst d.
Proof.
  induction d as [|[k' v'] d IH]; simpl; [discriminate|].
  destruct (pystr_eqb k k') eqn:K; simpl; [reflexivity|].
  intros H. now rewrite IH.
Qed.

Section Batches.
Variable E : Env.
Variable A : Type.

Lemma gather_length (tasks : list (M (World E) A)) :
  forall w, List.length (fst (gather E tasks w)) = List.length tasks.
Proof.
  induction tasks as [|t tasks IH]; intros w; simpl; [reflexivity|].
  destruct (t w) as [r w1]. specialize (IH w1).
  destruct (gather E tasks w1) as [rs w2]. simpl in *. now rewrite IH.
Qed.

(** Every task of a batch runs, whatever the tasks before it returned, and
    its outcome stands at its own position. *)
Lemma gather_nth (tasks : list (M (World E) A)) :
  forall w i t, nth_error tasks i = Some t ->
    exists wi, nth_error (fst (gather E tasks w)) i = Some (fst (t wi)).
Proof.
  induction tasks as [|t0 tasks IH]; intros w i t H.
  - now destruct i.
  - simpl. destruct (t0 w) as [r w1] eqn:T0.
    destruct (gather E tasks w1) as [rs w2] eqn:G. destruct i as [|i].
    + simpl in H. inversion H. subst t. exists w. simpl. now rewrite T0.
    + simpl in H. destruct (IH w1 i t H) as [wi Hi]. exists wi.
      rewrite G in Hi. exact Hi.
Qed.

Lemma successes_length (rs : list (res A)) :
  (List.length (successes rs) <= List.length rs)%nat.
Proof.
  induction rs as [|[a|e] rs IH]; simpl; lia.
Qed.

Lemma successes_nil (rs : list (res A)) :
  successes rs = [] <-> Forall (fun r => is_ok r = false) rs.
Proof.
  induction rs as [|[a|e] rs IH]; simpl.
  - split; [constructor|reflexivity].
  - split; [discriminate|]. intros H. inversion H. discriminate.
  - rewrite IH. split.
    + now constructor.
    + intros H. now inversion H.
Qed.

Lemma successes_cons (rs : list (res A)) :
  successes rs <> [] <-> Exists (fun r => is_ok r = true) rs.
Proof.
  induction rs as [|[a|e] rs IH]; simpl.
  - split; [congruence|]. intros H. inversion H.
  - split; [|discriminate]. intros _. now constructor.
  - rewrite IH. split.
    + now constructor 2.
    + intros H. inversion H; [discriminate|assumption].
Qed.

(** Positions of the outcomes that are values. *)
Fixpoint ok_positions (i : nat) (rs : list (res A)) : list nat :=
  match rs with
  | [] => []
  | Ok _ :: rest => i :: ok_positions (S i) rest
  | Raise _ :: rest => ok_positions (S i) rest
  end.

Lemma ok_positions_bound (rs : list (res A)) :
  forall i, Forall (fun p => (i <= p)%nat) (ok_positions i rs).
Proof.
  induction rs as [|[a|e] rs IH]; intros i; simpl.
  - constructor.
  - constructor; [lia|]. eapply Forall_impl; [|apply (IH (S i))].
    simpl. intros. lia.
  - eapply Forall_impl; [|apply (IH (S i))]. simpl. intros. lia.
Qed.

Lemma ok_positions_sorted (rs : list (res A)) :
  forall i, StronglySorted lt (ok_positions i rs).
Proof.
  induction rs as [|[a|e] rs IH]; intros i; simpl.
  - constructor.
  - constructor; [apply IH|].
    eapply Forall_impl; [|apply (ok_positions_bound rs (S i))].
    simpl. intros. lia.
  - apply IH.
Qed.

Lemma ok_positions_values (rs : list (res A)) :
  forall i,
    Forall2 (fun p a => (i <= p)%nat /\ nth_error rs (p - i) = Some (Ok a))
      (ok_positions i rs) (successes rs).
Proof.
  induction rs as [|[a|e] rs IH]; intros i; simpl.
  - constructor.
  - constructor.
    + split; [lia|]. now rewrite Nat.sub_diag.
    + eapply Forall2_impl; [|apply (IH (S i))]. simpl.
      intros p b [L H]. split; [lia|].
      replace (p - i)%nat with (S (p - S i)) by lia. exact H.
  - eapply Forall2_impl; [|apply (IH (S i))]. simpl.
    intros p b [L H]. split; [lia|].
    replace (p - i)%nat with (S (p - S i)) by lia. exact H.
Qed.

Lemma ok_positions_complete (rs : list (res A)) :
  forall i p a, nth_error rs p = Some (Ok a) ->
    In (i + p)%nat (ok_positions i rs).
Proof.
  induction rs as [|r rs IH]; intros i p a H.
  - now destruct p.
  - destruct p as [|p]; simpl in H.
    + inversion H. subst r. simpl. left. lia.
    + specialize (IH (S i) p a H).
      replace (i + S p)%nat with (S i + p)%nat by lia.
      destruct r; simpl; [right|]; exact IH.
Qed.

End Batches.

Lemma read_titles_length (stubs titles : list json) :
  read_titles stubs = Ok titles -> List.length titles = List.length stubs.
Proof.
  revert titles. induction stubs as [|u stubs IH]; intros titles; simpl.
  - intros H. now inversion H.
  - destruct (Py.getitem u (py "unitTitle")); [|discriminate].
    destruct (read_titles stubs) as [ts|]; [|discriminate].
    intros H. inversion H. simpl. now rewrite (IH ts).
Qed.

(** Position by position, [read_titles] reads the title of the stub. *)
Lemma read_titles_nth (stubs titles : list json) :
  read_titles stubs = Ok titles ->
  forall i u, nth_error stubs i = Some u ->
    exists t, nth_error titles i = Some t /\
              Py.getitem u (py "unitTitle") = Ok t.
Proof.
  revert titles. induction stubs as [|u0 stubs IH]; intros titles H i u Hi.
  - now destruct i.
  - simpl in H. destruct (Py.getitem u0 (py "unitTitle")) as [t0|] eqn:T;
      [|discriminate].
    destruct (read_titles stubs) as [ts|]; [|discriminate].
    inversion H. subst titles. destruct i as [|i]; simpl in Hi.
    + inversion Hi. subst u0. now exists t0.
    + now apply (IH ts).
Qed.

(** ** Course orchestration *)

Section Orchestrator.
Variable E : Env.
Import TextRepair.

Local Abbreviation W := (World E).

(** The full-detail pipelines of the titles, in order. *)
Definition detail_tasks (request : CourseRequest) (titles : list json)
  : list (M W json) :=
  map (fun t =>
         get_unit_details E t (subject request) (difficulty request)
           (focus_area request)) titles.

(** On stubs that carry a title, the loop of [generate_course] collects
    the values of the batch of pipelines, run in order. *)
Lemma course_loop_gather (request : CourseRequest) (stubs : list json) :
  forall titles acc w,
    read_titles stubs = Ok titles ->
    course_loop E request stubs acc w
    = (Ok (acc ++ successes (fst (gather E (detail_tasks request titles) w))),
       snd (gather E (detail_tasks request titles) w)).
Proof.
  induction stubs as [|u stubs IH]; intros titles acc w H; simpl in H.
  - inversion H. simpl. unfold ret. now rewrite app_nil_r.
  - destruct (Py.getitem u (py "unitTitle")) as [t|] eqn:T; [|discriminate].
    destruct (read_titles stubs) as [ts|] eqn:R; [|discriminate].
    inversion H. subst titles. clear H.
    cbn [course_loop detail_tasks map gather].
    fold (detail_tasks request ts).
    unfold bind at 1. unfold course_step. run_m. rewrite T.
    destruct (get_unit_details E t (subject request) (difficulty request)
                (focus_area request) w) as [[d|e] w1].
    + rewrite (IH ts (acc ++ [d]) w1 eq_refl).
      destruct (gather E (detail_tasks request ts) w1) as [rs w2].
      simpl. now rewrite <- app_assoc.
    + cbn [any_exception]. rewrite (IH ts acc w1 eq_refl).
      now destruct (gather E (detail_tasks request ts) w1) as [rs w2].
Qed.

(** X19.  Let the skeleton reply parse to a dictionary whose [units] list
    has as many stubs as the request asks for, each stub carrying a
    [unitTitle].  Then [generate_course] runs one pipeline per stub; it
    answers with the skeleton whose [units] are the values of the pipelines
    that returned, between 1 and the requested number of them, when at least
    one returned; and it fails, with status 500, exactly when every
    pipeline raised. *)
Theorem generate_course_unit_count
  (request : CourseRequest) (w w1 : W) (text : pystr)
  (d : list (pystr * json)) (stubs titles : list json) :
  valid_course_request request ->
  generate_content E (structure_prompt E request) w = (Ok text, w1) ->
  json_loads E (clean_json text) = Some (JObj d) ->
  Py.dict_get (py "units") d = Some (JArr stubs) ->
  List.length stubs = Z.to_nat (units request) ->
  read_titles stubs = Ok titles ->
  let outs := fst (gather E (detail_tasks request titles) w1) in
  List.length outs = Z.to_nat (units request)
  /\ match fst (generate_course E request w) with
     | Ok v =>
         v = JObj (Py.dict_set (py "units") (JArr (successes outs)) d)
         /\ Py.getitem v (py "units") = Ok (JArr (successes outs))
         /\ (1 <= List.length (successes outs) <= Z.to_nat (units request))%nat
         /\ Exists (fun o => is_ok o = true) outs
     | Raise e =>
         e = HTTPException 500 (exn_str E (HTTPException 500 NO_UNITS))
         /\ Forall (fun o => is_ok o = false) outs
     end
  /\ (http_status (fst (generate_course E request w)) = 500%Z
      <-> Forall (fun o => is_ok o = false) outs).
Proof.
  intros V G L U N T outs.
  assert (Hlen : List.length outs = Z.to_nat (units request)).
  { unfold outs. rewrite gather_length. unfold detail_tasks.
    rewrite length_map, (read_titles_length _ _ T). exact N. }
  assert (Run : fst (generate_course E request w)
                = if Py.is_empty (successes outs)
                  then Raise (HTTPException 500
                                (exn_str E (HTTPException 500 NO_UNITS)))
                  else Ok (JObj (Py.dict_set (py "units")
                                   (JArr (successes outs)) d))).
  { unfold generate_course, loads. run_m. rewrite G, L.
    unfold Py.getitem. rewrite U. cbn [Py.iter].
    rewrite (course_loop_gather request stubs titles [] w1 T).
    cbn [app]. fold outs.
    destruct (successes outs); reflexivity. }
  split; [exact Hlen|].
  rewrite Run. destruct (successes outs) as [|a l] eqn:S; cbn [Py.is_empty].
  - apply successes_nil in S. split; [now split|].
    simpl. now split.
  - assert (Ne : successes outs <> []) by now rewrite S.
    apply successes_cons in Ne. split.
    + split; [reflexivity|]. split.
      { unfold Py.getitem. now rewrite dict_get_set_same. }
      split; [|exact Ne].
      pose proof (successes_length _ outs) as Le. rewrite S in Le.
      rewrite Hlen in Le. simpl in *. lia.
    + simpl. split; [discriminate|].
      intros F. apply successes_nil in F. congruence.
Qed.



End Orchestrator.

(** ** The skeleton around the units, and the assessment of a unit *)

(** The shape the MCQ prompt asks the model for: exactly three topics, each
    with at least three questions, each question with exactly four options,
    a [correctAnswer] and an [explanation]. *)
Definition question_ok (q : json) : bool :=
  match Py.getitem q (py "options"), Py.getitem q (py "correctAnswer"),
        Py.getitem q (py "explanation") with
  | Ok (JArr options), Ok _, Ok _ => (List.length options =? 4)%nat
  | _, _, _ => false
  end.

Definition topic_ok (t : json) : bool :=
  match Py.getitem t (py "questions") with
  | Ok (JArr questions) =>
      (3 <=? List.length questions)%nat && forallb question_ok questions
  | _ => false
  end.

Definition mcq_shape_ok (assessment : json) : bool :=
  match Py.getitem assessment (py "unitAssessment") with
  | Ok (JArr topics) =>
      (List.length topics =? 3)%nat && forallb topic_ok topics
  | _ => false
  end.

Section Skeleton.
Variable E : Env.
Import TextRepair.

Local Abbreviation W := (World E).

Lemma generate_course_success (request : CourseRequest) (w : W) (v : json) :
  fst (generate_course E request w) = Ok v ->
  exists text w1 d x detailed,
    generate_content E (structure_prompt E request) w = (Ok text, w1)
    /\ json_loads E (clean_json text) = Some (JObj d)
    /\ Py.dict_get (py "units") d = Some x
    /\ v = JObj (Py.dict_set (py "units") (JArr detailed) d).
Proof.
  unfold generate_course, loads. run_m.
  destruct (generate_content E (structure_prompt E request) w)
    as [[text|e] w1] eqn:G; [|discriminate].
  destruct (json_loads E (clean_json text)) as [cs|] eqn:L; [|discriminate].
  destruct cs; simpl; try discriminate.
  destruct (Py.dict_get (py "units") fields) as [x|] eqn:U; [|discriminate].
  destruct (Py.iter x) as [stubs|]; [|discriminate].
  destruct (course_loop E request stubs [] w1) as [[detailed|e] w2];
    [|discriminate].
  destruct detailed as [|u l]; simpl; [discriminate|].
  intros H. inversion H. now exists text, w1, fields, x, (u :: l).
Qed.

Lemma generate_question_success (request : CourseRequest) (w : W) (v : json) :
  fst (generate_question E request w) = Ok v ->
  exists text w1 d x detailed,
    generate_content E (structure_prompt E request) w = (Ok text, w1)
    /\ json_loads E (clean_json text) = Some (JObj d)
    /\ Py.dict_get (py "units") d = Some x
    /\ v = JObj (Py.dict_set (py "units") (JArr detailed) d).
Proof.
  unfold generate_question, loads. run_m.
  destruct (generate_content E (structure_prompt E request) w)
    as [[text|e] w1] eqn:G; [|discriminate].
  destruct (json_loads E (clean_json text)) as [cs|] eqn:L; [|discriminate].
  destruct cs; simpl; try discriminate.
  destruct (Py.dict_get (py "units") fields) as [x|] eqn:U; [|discriminate].
  destruct (Py.iter x) as [stubs|]; [|discriminate].
  destruct (read_titles stubs) as [titles|]; [|discriminate].
  destruct (gather E (mcq_tasks E request titles) w1) as [rs w2].
  destruct (successes rs) as [|u l] eqn:S; simpl; [discriminate|].
  intros H. inversion H. now exists text, w1, fields, x, (u :: l).
Qed.

(** C7.  An answer of [generate_course] or of [generate_question] is the
    dictionary parsed from the skeleton reply with the value of [units]
    replaced: the keys and their order are those of the skeleton, and every
    key other than [units] holds the value it was parsed with. *)
Theorem course_endpoints_replace_units_only
  (request : CourseRequest) (w : W) (v : json) :
  fst (generate_course E request w) = Ok v
  \/ fst (generate_question E request w) = Ok v ->
  exists text w1 d d',
    generate_content E (structure_prompt E request) w = (Ok text, w1)
    /\ json_loads E (clean_json text) = Some (JObj d)
    /\ v = JObj d'
    /\ map fst d' = map fst d
    /\ (forall k, k <> py "units" -> Py.dict_get k d' = Py.dict_get k d).
Proof.
  intros H.
  assert (S : exists text w1 d x detailed,
             generate_content E (structure_prompt E request) w = (Ok text, w1)
             /\ json_loads E (clean_json text) = Some (JObj d)
             /\ Py.dict_get (py "units") d = Some x
             /\ v = JObj (Py.dict_set (py "units") (JArr detailed) d)).
  { destruct H as [H|H];
      [now apply generate_course_success
      |now apply generate_question_success]. }
  destruct S as (text & w1 & d & x & detailed & G & L & U & ->).
  exists text, w1, d, (Py.dict_set (py "units") (JArr detailed) d).
  split; [exact G|]. split; [exact L|]. split; [reflexivity|].
  split; [now apply dict_set_keys with (x := x)|].
  intros k N. now apply dict_get_set_other.
Qed.

(** C8, as the code has it.  Whatever value the reply to the MCQ prompt
    parses to, [get_unit_details_with_mcqs] stores it under [assessment] in
    the unit dictionary and returns; the shape of the value is not looked
    at. *)
Theorem mcq_reply_attached_unchecked
  (unit_title : json) (subj : pystr) (diff : DifficultyLevel) (focus : pystr)
  (w w1 w2 : W) (t1 t2 : pystr) (unit_data : list (pystr * json))
  (title assessment : json) :
  generate_content E (mcq_unit_prompt E (py_str E unit_title) subj diff focus) w
  = (Ok t1, w1) ->
  json_loads E (clean_json t1) = Some (JObj unit_data) ->
  Py.dict_get (py "unitTitle") unit_data = Some title ->
  generate_content E (mcq_prompt E (py_str E title) subj diff focus) w1
  = (Ok t2, w2) ->
  json_loads E (clean_json t2) = Some assessment ->
  get_unit_details_with_mcqs E unit_title subj diff focus w
  = (Ok (JObj (Py.dict_set (py "assessment") assessment unit_data)), w2).
Proof.
  intros G1 L1 T G2 L2.
  unfold get_unit_details_with_mcqs, generate_mcqs, loads. run_m.
  rewrite G1, L1. unfold Py.getitem. rewrite T, G2, L2. reflexivity.
Qed.

End Skeleton.

(** ** Scripted runs of the two course endpoints *)

Module Scenario.

(** Skeleton of three stubs; the MCQ pipelines of A and C return a unit
    whose assessment is the empty object, the one of B raises. *)
Definition question_world : Demo.script :=
  Demo.model_says
    [Ok (Demo.fenced Demo.skeleton); Ok (Demo.dumps (Demo.stub "A"));
     Ok (Demo.dumps Demo.empty_object); Raise (LibraryError 3);
     Ok (Demo.dumps (Demo.stub "C")); Ok (Demo.fenced Demo.empty_object)].

(** Skeleton of three stubs; the pipeline of A returns, those of B and C
    raise. *)
Definition course_world : Demo.script :=
  Demo.model_says
    [Ok (Demo.fenced Demo.skeleton); Ok (Demo.fenced Demo.unit_detail);
     Ok (Demo.dumps Demo.topic_contents); Raise (LibraryError 3);
     Raise (LibraryError 4)].

(** The two replies of one MCQ pipeline. *)
Definition mcq_world : Demo.script :=
  Demo.model_says
    [Ok (Demo.dumps (Demo.stub "A")); Ok (Demo.dumps Demo.empty_object)].

Lemma request3_valid : valid_course_request Demo.request3.
Proof. split; discriminate. Defined.

End Scenario.

(** [generate_course_unit_count] on the scripted run: one unit of three
    survives and the request succeeds. *)
Lemma generate_course_unit_count_witness :
  exists v units',
    fst (generate_course Demo.env Demo.request3 Scenario.course_world) = Ok v
    /\ Py.getitem v (py "units") = Ok (JArr units')
    /\ (1 <= List.length units' <= 3)%nat.
Proof.
  pose proof (generate_course_unit_count Demo.env Demo.request3
                Scenario.course_world _ _ _ _ _ Scenario.request3_valid
                eq_refl eq_refl eq_refl eq_refl eq_refl) as H.
  cbv zeta in H. destruct H as (_ & H & _).
  destruct (fst (generate_course Demo.env Demo.request3 Scenario.course_world))
    as [v|e] eqn:R.
  - destruct H as (_ & U & B & _). eexists v, _. split; [reflexivity|].
    split; [exact U|exact B].
  - vm_compute in R. discriminate.
Defined.



(** [course_endpoints_replace_units_only] on the scripted run: the title
    and the overview of the skeleton are in the answer. *)
Lemma course_endpoints_replace_units_only_witness :
  exists d',
    fst (generate_question Demo.env Demo.request3 Scenario.question_world)
    = Ok (JObj d')
    /\ Py.dict_get (py "courseTitle") d' = Some (JStr (py "Course"))
    /\ Py.dict_get (py "overview") d' = Some (JStr (py "About")).
Proof.
  destruct (course_endpoints_replace_units_only Demo.env Demo.request3
              Scenario.question_world _ (or_intror eq_refl))
    as (text & w1 & d & d' & G & L & V & _ & F).
  exists d'. split; [rewrite <- V; reflexivity|].
  vm_compute in G. inversion G. subst text. clear G.
  vm_compute in L. inversion L. subst d. clear L.
  split; (rewrite F; [vm_compute; reflexivity|]); intros K;
    apply (f_equal (@List.length N)) in K; vm_compute in K; discriminate.
Defined.

(** [mcq_reply_attached_unchecked] on a scripted pipeline whose MCQ reply
    is the empty object. *)
Lemma mcq_reply_attached_unchecked_witness :
  fst (get_unit_details_with_mcqs Demo.env (JStr (py "A")) (py "Python") EASY
         (py "Basics") Scenario.mcq_world)
  = Ok (JObj [(py "unitTitle", JStr (py "A"));
              (py "assessment", Demo.empty_object)]).
Proof.
  erewrite mcq_reply_attached_unchecked; [ | reflexivity ..]. reflexivity.
Defined.

(** C8, as stated, fails: in the scripted run the answer of
    [generate_question] holds a unit whose assessment is the empty
    object. *)
Lemma mcq_shape_not_enforced :
  ~ (forall (E : Env) (request : CourseRequest) (w : World E)
       (v : json) (units' : list json) (u a : json),
       fst (generate_question E request w) = Ok v ->
       Py.getitem v (py "units") = Ok (JArr units') ->
       In u units' ->
       Py.getitem u (py "assessment") = Ok a ->
       mcq_shape_ok a = true).
Proof.
  intros H.
  specialize (H Demo.env Demo.request3 Scenario.question_world _ _ _ _
                eq_refl eq_refl (or_introl eq_refl) eq_refl).
  vm_compute in H. discriminate.
Qed.

(** ** Handlers that wrap every exception *)

(** A body under [except Exception as e: raise HTTPException(500, ...)]
    answers 200 or 500. *)
Lemma wrapped_status {W A : Type} (m : M W A) (f : exn -> pystr) (w : W) :
  http_status
    (fst (try_except m any_exception
            (fun e => raise (HTTPException 500 (f e))) w)) = 200%Z
  \/ http_status
       (fst (try_except m any_exception
               (fun e => raise (HTTPException 500 (f e))) w)) = 500%Z.
Proof.
  unfold try_except, raise. destruct (m w) as [[a|e] w']; simpl; auto.
Qed.

(** ** The document endpoint *)

Definition supported (ext : pystr) : bool :=
  pystr_eqb ext (py "docx") || pystr_eqb ext (py "pdf")
  || pystr_eqb ext (py "pptx").

(** [d.get(k, default)] on the fields of a dictionary. *)
Definition field_or (d : list (pystr * json)) (k : pystr) (default : json)
  : json :=
  match Py.dict_get k d with
  | Some x => x
  | None => default
  end.

Module DocScenario.

Definition body (text : string) : res response :=
  Ok {| status_code := 200; content := py text |}.

(** A text file: the download succeeds, the extension is not supported. *)
Definition txt_url : pystr := py "http://host/notes.txt".
Definition txt_world : Demo.script :=
  {| Demo.model_replies := []; Demo.http_replies := [body "hello"] |}.

(** A PDF whose text is blank. *)
Definition pdf_url : pystr := py "http://host/a.pdf".
Definition blank_world : Demo.script :=
  {| Demo.model_replies := []; Demo.http_replies := [body "   "] |}.

(** A PDF with text, classified by a reply whose [domain] is [null]. *)
Definition null_world : Demo.script :=
  {| Demo.model_replies := [Ok (Demo.dumps Demo.null_domain)];
     Demo.http_replies := [body "hello"] |}.

End DocScenario.

Section DocumentEndpoint.
Variable E : Env.
Import TextRepair.

Local Abbreviation W := (World E).

Lemma extract_content_unsupported (ext : pystr) (bytes : list N) :
  supported ext = false ->
  extract_content E ext bytes = Raise (HTTPException 400 UNSUPPORTED).
Proof.
  unfold supported, extract_content. intros H.
  apply orb_false_iff in H as [H H3]. apply orb_false_iff in H as [H1 H2].
  now rewrite H1, H2, H3.
Qed.

(** Whatever the handler raises leaves the endpoint with status 500. *)
Lemma detect_domain_status (url : pystr) (w : W) :
  http_status (fst (detect_domain_from_file E url w)) = 200%Z
  \/ http_status (fst (detect_domain_from_file E url w)) = 500%Z.
Proof. unfold detect_domain_from_file. apply wrapped_status. Qed.

(** C5, on the code.  Once the download has answered 200, an extension
    other than docx, pdf and pptx raises the 400 "Unsupported file type."
    whatever the body holds, and a blank extracted text raises the 400
    "Extracted content is empty."; the handler [except Exception] of the
    endpoint catches either and raises a 500 whose detail is the text of
    the caught exception, so the client never sees the status 400. *)
Theorem detect_domain_policy_errors_are_500
  (url : pystr) (w w1 : W) (r : response) :
  requests_get E url w = (Ok r, w1) ->
  status_code r = 200%Z ->
  let ext := file_extension E (Py.basename url) in
  (supported ext = false ->
   detect_domain_from_file E url w
   = (Raise (HTTPException 500 (exn_str E (HTTPException 400 UNSUPPORTED))),
      w1))
  /\ (forall text,
        extract_content E ext (content r) = Ok text -> strip text = [] ->
        detect_domain_from_file E url w
        = (Raise (HTTPException 500
                    (exn_str E (HTTPException 400 EMPTY_CONTENT))), w1))
  /\ http_status (fst (detect_domain_from_file E url w)) <> 400%Z.
Proof.
  intros G S ext. split; [|split].
  - intros U. unfold detect_domain_from_file. run_m. rewrite G, S.
    cbn [Z.eqb Pos.eqb negb]. fold ext.
    now rewrite (extract_content_unsupported ext (content r) U).
  - intros text X B. unfold detect_domain_from_file. run_m. rewrite G, S.
    cbn [Z.eqb Pos.eqb negb]. fold ext. rewrite X, B. reflexivity.
  - destruct (detect_domain_status url w) as [H|H]; rewrite H; discriminate.
Qed.

Lemma domain_response_dict (filename : pystr) (d : list (pystr * json)) :
  domain_response filename (JObj d)
  = Ok (JObj [(py "filename", JStr filename);
              (py "domain", field_or d (py "domain") UNKNOWN);
              (py "subdomain", field_or d (py "subdomain") UNKNOWN);
              (py "explanation",
               field_or d (py "explanation") NO_EXPLANATION)]).
Proof. reflexivity. Qed.

Lemma domain_response_ok (filename : pystr) (result v : json) :
  domain_response filename result = Ok v ->
  exists d, result = JObj d.
Proof. destruct result; try discriminate. intros _. now exists fields. Qed.

(** C10, as the code has it.  The document endpoint succeeds exactly when
    the download answered 200, the extraction gave a text that is not
    blank, and the reply of the model to the prompt made of that text
    parsed, markers stripped, to a dictionary.  Its answer is then a
    dictionary of exactly the four keys filename, domain, subdomain and
    explanation, and each of the last three holds the value of that key in
    the parsed reply when the reply has the key (whatever the value, [null]
    included) and the default text when it has not. *)
Theorem detect_domain_response_fields (url : pystr) (w : W) (v : json) :
  (fst (detect_domain_from_file E url w) = Ok v <->
   exists r w1 text reply w2 d,
     requests_get E url w = (Ok r, w1)
     /\ status_code r = 200%Z
     /\ extract_content E (file_extension E (Py.basename url)) (content r)
        = Ok text
     /\ Py.is_empty (strip text) = false
     /\ generate_content E (domain_prompt E text) w1 = (Ok reply, w2)
     /\ json_loads E (strip_markers reply) = Some (JObj d)
     /\ v = JObj [(py "filename", JStr (Py.basename url));
                  (py "domain", field_or d (py "domain") UNKNOWN);
                  (py "subdomain", field_or d (py "subdomain") UNKNOWN);
                  (py "explanation",
                   field_or d (py "explanation") NO_EXPLANATION)])
  /\ (forall d k x default,
        Py.dict_get k d = Some x -> field_or d k default = x)
  /\ (forall d k default,
        Py.dict_get k d = None -> field_or d k default = default).
Proof.
  split; [|split; intros; unfold field_or;
           match goal with H : Py.dict_get _ _ = _ |- _ => now rewrite H end].
  split.
  - unfold detect_domain_from_file, loads. run_m.
    destruct (requests_get E url w) as [[r|e] w1]; [|discriminate].
    destruct (status_code r =? 200)%Z eqn:S; [|discriminate].
    apply Z.eqb_eq in S. cbn [negb].
    destruct (extract_content E _ (content r)) as [text|e] eqn:X;
      [|discriminate].
    destruct (Py.is_empty (strip text)) eqn:B; [discriminate|].
    destruct (generate_content E (domain_prompt E text) w1)
      as [[reply|e] w2] eqn:G; [|discriminate].
    destruct (json_loads E (strip_markers reply)) as [result|] eqn:L;
      [|discriminate].
    destruct (domain_response (Py.basename url) result) as [v'|e] eqn:D;
      [|discriminate].
    destruct (domain_response_ok _ _ _ D) as [d ->].
    rewrite domain_response_dict in D. inversion D. subst v'.
    cbn [fst]. intros H. inversion H.
    now exists r, w1, text, reply, w2, d.
  - intros (r & w1 & text & reply & w2 & d & R & S & X & B & G & L & ->).
    unfold detect_domain_from_file, loads. run_m.
    rewrite R, S. cbn [Z.eqb Pos.eqb negb]. now rewrite X, B, G, L.
Qed.

End DocumentEndpoint.

(** [detect_domain_policy_errors_are_500] on a downloaded text file and on
    a PDF whose text is blank. *)
Lemma detect_domain_policy_errors_are_500_witness :
  http_status
    (fst (detect_domain_from_file Demo.env DocScenario.txt_url
            DocScenario.txt_world)) = 500%Z
  /\ http_status
       (fst (detect_domain_from_file Demo.env DocScenario.pdf_url
               DocScenario.blank_world)) = 500%Z.
Proof.
  split.
  - destruct (detect_domain_policy_errors_are_500 Demo.env
                DocScenario.txt_url DocScenario.txt_world _ _
                eq_refl eq_refl) as (U & _).
    rewrite U; reflexivity.
  - destruct (detect_domain_policy_errors_are_500 Demo.env
                DocScenario.pdf_url DocScenario.blank_world _ _
                eq_refl eq_refl) as (_ & B & _).
    erewrite B; reflexivity.
Defined.

(** [detect_domain_response_fields] on a PDF classified by a reply that
    has only the key [domain], with the value [null]. *)
Lemma detect_domain_response_fields_witness :
  exists v,
    fst (detect_domain_from_file Demo.env DocScenario.pdf_url
           DocScenario.null_world) = Ok v
    /\ Py.getitem v (py "filename") = Ok (JStr (py "a.pdf"))
    /\ Py.getitem v (py "domain") = Ok JNull
    /\ Py.getitem v (py "subdomain") = Ok UNKNOWN
    /\ Py.getitem v (py "explanation") = Ok NO_EXPLANATION.
Proof.
  destruct (detect_domain_response_fields Demo.env DocScenario.pdf_url
              DocScenario.null_world
              (JObj [(py "filename", JStr (py "a.pdf")); (py "domain", JNull);
                     (py "subdomain", UNKNOWN);
                     (py "explanation", NO_EXPLANATION)]))
    as ([_ Back] & _).
  eexists. split.
  - apply Back.
    exists {| status_code := 200; content := py "hello" |},
      {| Demo.model_replies := [Ok (Demo.dumps Demo.null_domain)];
         Demo.http_replies := [] |},
      (py "hello"), (Demo.dumps Demo.null_domain),
      {| Demo.model_replies := []; Demo.http_replies := [] |},
      [(py "domain", JNull)].
    repeat split; reflexivity.
  - repeat split; reflexivity.
Defined.

(** C10, as stated, fails: a reply [{"domain": null}] comes back with
    [null] under [domain]. *)
Lemma domain_field_may_be_null :
  ~ (forall (E : Env) (url : pystr) (w : World E) (v : json) (k : pystr),
       fst (detect_domain_from_file E url w) = Ok v ->
       In k [py "filename"; py "domain"; py "subdomain"; py "explanation"] ->
       exists x, Py.getitem v k = Ok x /\ x <> JNull).
Proof.
  intros H.
  destruct (H Demo.env DocScenario.pdf_url DocScenario.null_world _
              (py "domain") eq_refl (or_intror (or_introl eq_refl)))
    as (x & G & N).
  vm_compute in G. inversion G. now elim N.
Qed.

(** * Further properties of the helpers and handlers *)

(** ** Trimming and fence stripping *)

Section TrimmingMore.
Variable f : N -> bool.



Lemma lstrip_by_nil (s : pystr) :
  lstrip_by f s = [] <-> forallb f s = true.
Proof.
  induction s as [|c s IH]; simpl; [tauto|].
  destruct (f c); simpl; [exact IH|]. split; discriminate.
Qed.

Lemma forallb_rev (s : pystr) : forallb f (rev s) = forallb f s.
Proof.
  induction s as [|c s IH]; simpl; [reflexivity|].
  rewrite forallb_app, IH. simpl. rewrite andb_true_r. apply andb_comm.
Qed.

Lemma strip_by_nil (s : pystr) :
  strip_by f s = [] <-> forallb f s = true.
Proof.
  unfold strip_by, rstrip_by. split.
  - intros H. apply (f_equal (@rev N)) in H. rewrite rev_involutive in H.
    simpl in H. apply lstrip_by_nil in H. rewrite forallb_rev in H.
    pose proof (lstrip_by_lstripped f s) as L.
    destruct (lstrip_by f s) as [|c t] eqn:E.
    + now apply lstrip_by_nil.
    + simpl in H, L. destruct (f c); discriminate.
  - intros H. apply lstrip_by_nil in H. now rewrite H.
Qed.

End TrimmingMore.

Section RepairMore.
Import TextRepair.

Definition BACKTICK : N := 96%N.

Definition no_backtick (s : pystr) : bool :=
  forallb (fun c => negb (N.eqb c BACKTICK)) s.

Lemma no_backtick_no_fence (s : pystr) :
  forall bol, no_backtick s = true -> has_fence bol s = false.
Proof.
  induction s as [|c s IH]; intros bol H; [reflexivity|].
  simpl in H. apply andb_true_iff in H as [Hc Hs].
  cbn [has_fence]. rewrite (IH _ Hs).
  assert (C : N.eqb BACKTICK c = false).
  { rewrite N.eqb_sym. now apply negb_true_iff. }
  unfold fence_json, fence. cbn [py list_ascii_of_string map startswith].
  change (N_of_ascii "`") with BACKTICK. rewrite C. simpl.
  now rewrite andb_false_r.
Qed.


(** X1.  On a text without a backtick the first repair variant is plain
    trimming: nothing but outer whitespace is removed. *)
Theorem clean_json_plain_text (s : pystr) :
  no_backtick s = true -> clean_json s = strip s.
Proof.
  intros H. unfold clean_json.
  now rewrite (sub_fence_no_match s true (no_backtick_no_fence s true H)).
Qed.

Lemma clean_json_plain_text_witness :
  clean_json (py "  {}  ") = py "{}".
Proof.
  rewrite clean_json_plain_text; vm_compute; reflexivity.
Defined.


(** X3.  The emptiness test [not content.strip()] of the document endpoint
    holds exactly for a text made of whitespace only. *)
Theorem blank_iff_all_space (text : pystr) :
  Py.is_empty (strip text) = forallb is_space text.
Proof.
  destruct (forallb is_space text) eqn:F.
  - apply strip_by_nil in F. unfold strip. now rewrite F.
  - destruct (strip text) as [|c t] eqn:S; [|reflexivity].
    apply strip_by_nil in S. congruence.
Qed.

End RepairMore.

(** ** File names *)

Section FileNames.
Variable E : Env.

Definition lacks (sep : N) (s : pystr) : bool :=
  forallb (fun c => negb (N.eqb c sep)) s.

Lemma after_last_none (sep : N) (s : pystr) :
  forall acc, lacks sep s = true -> Py.after_last_from sep acc s = acc.
Proof.
  induction s as [|c s IH]; intros acc H; [reflexivity|].
  simpl in H. apply andb_true_iff in H as [Hc Hs].
  apply negb_true_iff in Hc. simpl. rewrite Hc. now apply IH.
Qed.

Lemma after_last_app (sep : N) (a b : pystr) :
  forall acc, lacks sep b = true ->
    Py.after_last_from sep acc (a ++ sep :: b) = b.
Proof.
  induction a as [|c a IH]; intros acc H; simpl.
  - rewrite N.eqb_refl. now apply after_last_none.
  - destruct (N.eqb c sep); now apply IH.
Qed.

(** X4.  The extension the document endpoint dispatches on is what follows
    the last dot of what follows the last slash of the URL, with ASCII
    letters lowered; a last path segment without a dot is its own
    extension. *)
Theorem file_extension_of_url (dir name ext : pystr) :
  lacks 47 name = true -> lacks 47 ext = true -> lacks 46 ext = true ->
  Py.is_ascii ext = true ->
  file_extension E (Py.basename (dir ++ [47%N] ++ name ++ [46%N] ++ ext))
  = map Py.ascii_lower ext
  /\ (lacks 46 name = true -> Py.is_ascii name = true ->
      file_extension E (Py.basename (dir ++ [47%N] ++ name))
      = map Py.ascii_lower name).
Proof.
  intros Sn Se De Ae. split.
  - unfold Py.basename. cbn [app]. rewrite after_last_app.
    + unfold file_extension, Py.last_field. rewrite after_last_app by exact De.
      unfold py_lower. now rewrite Ae.
    + unfold lacks in *. rewrite forallb_app. rewrite Sn. simpl.
      now rewrite Se.
  - intros Dn An. unfold Py.basename. cbn [app].
    rewrite after_last_app by exact Sn.
    unfold file_extension, Py.last_field.
    rewrite after_last_none by exact Dn.
    unfold py_lower. now rewrite An.
Qed.

End FileNames.

(** An upper-case extension is lowered, and a segment without a dot is its
    own extension. *)
Lemma file_extension_of_url_witness :
  file_extension Demo.env (Py.basename (py "http://host/dir/Slides.PPTX"))
  = py "pptx"
  /\ file_extension Demo.env (Py.basename (py "http://host/dir/PDF"))
     = py "pdf".
Proof.
  destruct (file_extension_of_url Demo.env (py "http://host/dir")
              (py "Slides") (py "PPTX") eq_refl eq_refl eq_refl eq_refl)
    as [A _].
  destruct (file_extension_of_url Demo.env (py "http://host/dir")
              (py "PDF") (py "x") eq_refl eq_refl eq_refl eq_refl)
    as [_ B].
  split; [exact A|]. exact (B eq_refl eq_refl).
Defined.

(** ** The list text of the recommendation endpoint *)

Section ListText.
Import TextRepair.

(** Lines 449-460 as one function of the reply. *)
Definition recommendation_text (reply : pystr) : pystr :=
  as_list_text (strip_markers reply).

Lemma lstrip_by_app_stop (f : N -> bool) (c : N) (s : pystr) :
  f c = false -> lstrip_by f (c :: s) = c :: s.
Proof. intros H. simpl. now rewrite H. Qed.

Lemma lstrip_by_skip (f : N -> bool) (c : N) (s : pystr) :
  f c = true -> lstrip_by f (c :: s) = lstrip_by f s.
Proof. intros H. simpl. now rewrite H. Qed.

(** Bracket-trimming a bracketed text whose inside is already
    bracket-trimmed gives the inside back. *)
Lemma strip_brackets_of_wrapped (m : pystr) :
  lstripped is_bracket m = true -> rstripped is_bracket m = true ->
  strip_by is_bracket (91%N :: m ++ [93%N]) = m.
Proof.
  intros L R. unfold strip_by. cbn [lstrip_by is_bracket N.eqb Pos.eqb orb].
  destruct m as [|c m']; [reflexivity|].
  simpl in L. apply negb_true_iff in L.
  cbn [app]. rewrite (lstrip_by_app_stop is_bracket c (m' ++ [93%N]) L).
  unfold rstrip_by. change (c :: m' ++ [93%N]) with ((c :: m') ++ [93%N]).
  rewrite rev_app_distr. change (rev [93%N] ++ rev (c :: m'))
    with (93%N :: rev (c :: m')).
  rewrite (lstrip_by_skip is_bracket 93 (rev (c :: m')) eq_refl).
  unfold rstripped in R.
  rewrite (lstrip_by_fixed is_bracket _ R). apply rev_involutive.
Qed.

Lemma wrapped_is_trimmed (m : pystr) :
  strip (91%N :: m ++ [93%N]) = 91%N :: m ++ [93%N].
Proof.
  apply strip_by_fixed; [reflexivity|].
  unfold rstripped. change (91%N :: m ++ [93%N]) with ((91%N :: m) ++ [93%N]).
  now rewrite rev_app_distr.
Qed.

Lemma wrapped_has_no_marker (m : pystr) :
  has_marker (91%N :: m ++ [93%N]) = false.
Proof.
  unfold has_marker, endswith.
  change (91%N :: m ++ [93%N]) with ((91%N :: m) ++ [93%N]).
  rewrite rev_app_distr. reflexivity.
Qed.

(** X5.  The text handed to [json.loads] by the recommendation endpoint
    always stands between one opening and one closing bracket, and
    normalising it again changes nothing: lines 449-460 are idempotent on
    every reply. *)
Theorem recommendation_text_idempotent (reply : pystr) :
  (exists m, recommendation_text reply = 91%N :: m ++ [93%N]
             /\ lstripped is_bracket m = true
             /\ rstripped is_bracket m = true)
  /\ recommendation_text (recommendation_text reply)
     = recommendation_text reply.
Proof.
  set (m := strip_by is_bracket (strip (strip_markers reply))).
  assert (Em : recommendation_text reply = 91%N :: m ++ [93%N])
    by reflexivity.
  destruct (strip_by_stripped is_bracket (strip (strip_markers reply)))
    as [L R]. fold m in L, R.
  split; [now exists m|].
  rewrite Em. unfold recommendation_text at 1.
  rewrite (strip_markers_fixed _ (wrapped_has_no_marker m)
             (wrapped_is_trimmed m)).
  unfold as_list_text. rewrite wrapped_is_trimmed.
  now rewrite (strip_brackets_of_wrapped m L R).
Qed.

End ListText.

(** ** Video lookup: one request, and bodies that are no object *)

Section VideoMore.
Variable E : Env.

(** X6.  [fetch_youtube_video] sends exactly one request and does nothing
    else to the world: no retry after a failure, no second call after a
    success. *)
Theorem fetch_sends_one_request (q : pystr) (w : World E) :
  snd (fetch_youtube_video E q w)
  = snd (requests_get E (youtube_api_url E q) w).
Proof.
  unfold fetch_youtube_video, youtube_try. run_m.
  destruct (requests_get E (youtube_api_url E q) w) as [[r|e] w1]; simpl.
  - destruct (raise_for_status r) as [[]|e]; simpl.
    + destruct (json_of_response E r) as [data|e]; simpl.
      * destruct (has_items data) as [[|]|e]; simpl.
        -- destruct (Py.getitem data (py "items")) as [items|e]; simpl.
           ++ destruct (Py.getitem0 items) as [first|e]; simpl.
              ** destruct (Py.getitem first (py "id")) as [id|e]; simpl.
                 --- destruct (Py.getitem id (py "videoId")) as [v|e];
                       simpl; [reflexivity|now destruct (is_timeout e)].
                 --- now destruct (is_timeout e).
              ** now destruct (is_timeout e).
           ++ now destruct (is_timeout e).
        -- reflexivity.
        -- now destruct (is_timeout e).
      * now destruct (is_timeout e).
    + now destruct (is_timeout e).
  - now destruct (is_timeout e).
Qed.

(** X7.  A reply whose JSON body is an array: without the string "items"
    among its elements the answer is "No relevant video found."; with it,
    indexing the array by a string raises and the answer is "Error fetching
    video.".  A body that is [null], a boolean or a number gives the error
    text as well. *)
Theorem fetch_on_non_object_body
  (q : pystr) (w w' : World E) (r : response) (data : json) :
  requests_get E (youtube_api_url E q) w = (Ok r, w') ->
  raise_for_status r = Ok tt ->
  response_json E r = Some data ->
  match data with
  | JArr l =>
      fetch_youtube_video E q w
      = (Ok (if existsb (Py.is_str (py "items")) l
             then FETCH_ERROR else NO_VIDEO), w')
  | JNull | JBool _ | JInt _ | JFloat _ =>
      fetch_youtube_video E q w = (Ok FETCH_ERROR, w')
  | _ => True
  end.
Proof.
  intros G S J.
  destruct data; try exact I;
    unfold fetch_youtube_video, youtube_try, json_of_response; run_m;
    rewrite G, S, J; try reflexivity.
  unfold has_items. cbn [Py.contains].
  destruct (existsb (Py.is_str (py "items")) items); reflexivity.
Qed.

End VideoMore.

Module VideoScenario.

(** The search answers 200 with a JSON array for body. *)
Definition array_world : Demo.script :=
  {| Demo.model_replies := [];
     Demo.http_replies :=
       [Ok {| status_code := 200;
              content :=
                Demo.dumps (JArr [JObj [(py "subject", JStr (py "Python"))]])
           |}] |}.

End VideoScenario.

Lemma fetch_on_non_object_body_witness :
  fst (fetch_youtube_video Demo.env (py "q") VideoScenario.array_world)
  = Ok NO_VIDEO.
Proof.
  pose proof (fetch_on_non_object_body Demo.env (py "q")
                VideoScenario.array_world _ _ _
                eq_refl eq_refl eq_refl) as H.
  cbv beta iota in H. rewrite H. reflexivity.
Defined.

(** ** The unit pipelines *)

(** What a catch-all handler that raises a 500 lets through. *)
Lemma wrapped_failure {W A : Type} (m : M W A) (g : exn -> pystr)
  (w : W) (e : exn) :
  fst (try_except m any_exception
         (fun e0 => raise (HTTPException 500 (g e0))) w) = Raise e ->
  exists e0, fst (m w) = Raise e0 /\ e = HTTPException 500 (g e0).
Proof.
  unfold try_except, raise. destruct (m w) as [[a|e0] w']; simpl.
  - discriminate.
  - intros H. inversion H. now exists e0.
Qed.

Module PipelineScenario.

(** The model is unreachable. *)
Definition down_world : Demo.script :=
  Demo.model_says [Raise (LibraryError 9)].

(** The unit reply has a title and no topics. *)
Definition no_topics_world : Demo.script :=
  Demo.model_says [Ok (Demo.fenced (Demo.stub "A"))].

(** The unit reply is an object without a title. *)
Definition untitled_world : Demo.script :=
  Demo.model_says [Ok (Demo.dumps Demo.empty_object)].

(** Unit reply and content reply are fine; the video search times out. *)
Definition slow_video_world : Demo.script :=
  {| Demo.model_replies :=
       [Ok (Demo.fenced Demo.unit_detail); Ok (Demo.dumps Demo.topic_contents)];
     Demo.http_replies := [Raise Timeout] |}.

End PipelineScenario.

Section Pipelines.
Variable E : Env.
Import TextRepair.

Local Abbreviation W := (World E).

Definition unit_failure_prefix (unit_title : json) : pystr :=
  py "Failed to generate unit details for " ++ py_str E unit_title ++ py ": ".

(** The [try] block of [get_unit_details], lines 152-168. *)
Definition unit_details_try (unit_title : json) (subj : pystr)
  (diff : DifficultyLevel) (focus : pystr) : M W json :=
  raw_response <-
    generate_content E (unit_prompt E (py_str E unit_title) subj diff focus) ;;
  let cleaned_json := clean_json raw_response in
  unit_data <-
    try_except (lift (loads E cleaned_json)) is_json_decode_error
      (fun e =>
         raise (ValueError
                  (py "JSON parsing error for " ++ py_str E unit_title
                   ++ py ": " ++ exn_str E e))) ;;
  detailed_content <- generate_unit_content E unit_data subj diff focus ;;
  unit_data <-
    lift (Py.setitem unit_data (py "detailedContent") detailed_content) ;;
  let youtube_query :=
    py_str E unit_title ++ SPACE ++ subj ++ SPACE ++ focus in
  youtube_video_url <- fetch_youtube_video E youtube_query ;;
  unit_data <-
    lift (Py.setitem unit_data (py "youtube_video_url")
            (JStr youtube_video_url)) ;;
  ret unit_data.

(** The [try] block of [get_unit_details_with_mcqs], lines 235-242. *)
Definition mcq_unit_try (unit_title : json) (subj : pystr)
  (diff : DifficultyLevel) (focus : pystr) : M W json :=
  text <-
    generate_content E
      (mcq_unit_prompt E (py_str E unit_title) subj diff focus) ;;
  unit_data <- lift (loads E (clean_json text)) ;;
  unit_mcqs <- generate_mcqs E unit_data subj diff focus ;;
  unit_data <- lift (Py.setitem unit_data (py "assessment") unit_mcqs) ;;
  ret unit_data.

Lemma get_unit_details_try (unit_title : json) (subj : pystr)
  (diff : DifficultyLevel) (focus : pystr) :
  get_unit_details E unit_title subj diff focus
  = try_except (unit_details_try unit_title subj diff focus) any_exception
      (fun e =>
         raise (HTTPException 500
                  (py "Failed to generate unit details for "
                   ++ py_str E unit_title ++ py ": " ++ exn_str E e))).
Proof. reflexivity. Qed.

Lemma get_unit_details_with_mcqs_try (unit_title : json) (subj : pystr)
  (diff : DifficultyLevel) (focus : pystr) :
  get_unit_details_with_mcqs E unit_title subj diff focus
  = try_except (mcq_unit_try unit_title subj diff focus) any_exception
      (fun e =>
         raise (HTTPException 500
                  (py "Failed to generate unit details for "
                   ++ py_str E unit_title ++ py ": " ++ exn_str E e))).
Proof. reflexivity. Qed.

Lemma unit_failure_detail (unit_title : json) (e : exn) :
  py "Failed to generate unit details for " ++ py_str E unit_title
  ++ py ": " ++ exn_str E e
  = unit_failure_prefix unit_title ++ exn_str E e.
Proof. unfold unit_failure_prefix. now rewrite <- !app_assoc. Qed.

(** A catch-all handler that raises a 500 fails exactly when its body
    does, with the exception of the body in the detail. *)
Lemma wrapped_failure_iff {A : Type} (m : M W A) (g : exn -> pystr)
  (w w' : W) (e : exn) :
  try_except m any_exception
    (fun e0 => raise (HTTPException 500 (g e0))) w = (Raise e, w')
  <-> exists e0, m w = (Raise e0, w') /\ e = HTTPException 500 (g e0).
Proof.
  unfold try_except, raise. destruct (m w) as [[a|e0] w0]; simpl; split.
  - discriminate.
  - intros (e1 & H & _). discriminate.
  - intros H. inversion H. now exists e0.
  - intros (e1 & H & ->). now inversion H.
Qed.

(** X8.  A unit pipeline, of either variant, fails exactly when its [try]
    block raises, and the caller then sees an [HTTPException] of status 500
    whose detail is "Failed to generate unit details for <title>: "
    followed by the text of the very exception the block raised; the world
    is the one the block left. *)
Theorem unit_pipeline_failures_are_500
  (unit_title : json) (subj : pystr) (diff : DifficultyLevel) (focus : pystr)
  (w w' : W) (e : exn) :
  (get_unit_details E unit_title subj diff focus w = (Raise e, w')
   <-> exists e0,
         unit_details_try unit_title subj diff focus w = (Raise e0, w')
         /\ e = HTTPException 500
                  (unit_failure_prefix unit_title ++ exn_str E e0))
  /\ (get_unit_details_with_mcqs E unit_title subj diff focus w
      = (Raise e, w')
      <-> exists e0,
            mcq_unit_try unit_title subj diff focus w = (Raise e0, w')
            /\ e = HTTPException 500
                     (unit_failure_prefix unit_title ++ exn_str E e0)).
Proof.
  split.
  - rewrite get_unit_details_try.
    etransitivity; [apply wrapped_failure_iff|].
    split; intros (e0 & H & ->); exists e0; (split; [exact H|]);
      now rewrite unit_failure_detail.
  - rewrite get_unit_details_with_mcqs_try.
    etransitivity; [apply wrapped_failure_iff|].
    split; intros (e0 & H & ->); exists e0; (split; [exact H|]);
      now rewrite unit_failure_detail.
Qed.

(** X9.  A unit reply without the key the next prompt formats fails the
    unit before the model is asked again: in the MCQ variant a reply
    without [unitTitle], in the full-detail variant a reply with a title
    and without [topicsCovered].  The detail carries the text of the
    [KeyError]. *)
Theorem unit_reply_missing_key
  (unit_title : json) (subj : pystr) (diff : DifficultyLevel) (focus : pystr)
  (w w1 : W) (reply : pystr) (unit_data : list (pystr * json)) :
  json_loads E (clean_json reply) = Some (JObj unit_data) ->
  (generate_content E (mcq_unit_prompt E (py_str E unit_title) subj diff focus)
     w = (Ok reply, w1) ->
   Py.dict_get (py "unitTitle") unit_data = None ->
   get_unit_details_with_mcqs E unit_title subj diff focus w
   = (Raise (HTTPException 500
               (unit_failure_prefix unit_title
                ++ exn_str E (KeyError (py "unitTitle")))), w1))
  /\ (generate_content E (unit_prompt E (py_str E unit_title) subj diff focus)
        w = (Ok reply, w1) ->
      Py.dict_get (py "unitTitle") unit_data <> None ->
      Py.dict_get (py "topicsCovered") unit_data = None ->
      get_unit_details E unit_title subj diff focus w
      = (Raise (HTTPException 500
                  (unit_failure_prefix unit_title
                   ++ exn_str E (KeyError (py "topicsCovered")))), w1)).
Proof.
  intros L. unfold unit_failure_prefix. split.
  - intros G T.
    unfold get_unit_details_with_mcqs, generate_mcqs, loads. run_m.
    rewrite G, L. unfold Py.getitem. rewrite T. cbn [any_exception].
    now rewrite <- !app_assoc.
  - intros G T C.
    unfold get_unit_details, generate_unit_content, loads. run_m.
    rewrite G, L. cbn [is_json_decode_error]. unfold Py.getitem.
    destruct (Py.dict_get (py "unitTitle") unit_data) as [t|];
      [|now elim T].
    rewrite C. cbn [any_exception]. now rewrite <- !app_assoc.
Qed.

(** X10.  Once the unit reply and the content reply are in, the full-detail
    pipeline returns whatever the video search does: the unit is the unit
    reply with [detailedContent] set to the content and [youtube_video_url]
    set to the string the lookup returned, a watch URL or one of its three
    sentinel texts. *)
Theorem unit_survives_video_failure
  (unit_title : json) (subj : pystr) (diff : DifficultyLevel) (focus : pystr)
  (w w1 w2 : W) (reply : pystr) (unit_data : list (pystr * json))
  (detailed : json) :
  generate_content E (unit_prompt E (py_str E unit_title) subj diff focus) w
  = (Ok reply, w1) ->
  json_loads E (clean_json reply) = Some (JObj unit_data) ->
  generate_unit_content E (JObj unit_data) subj diff focus w1
  = (Ok detailed, w2) ->
  exists url w3,
    fetch_youtube_video E
      (py_str E unit_title ++ SPACE ++ subj ++ SPACE ++ focus) w2
    = (Ok url, w3)
    /\ get_unit_details E unit_title subj diff focus w
       = (Ok (JObj (Py.dict_set (py "youtube_video_url") (JStr url)
                      (Py.dict_set (py "detailedContent") detailed
                         unit_data))), w3).
Proof.
  intros G L C.
  destruct (fetch_returns E
              (py_str E unit_title ++ SPACE ++ subj ++ SPACE ++ focus) w2)
    as (url & w3 & F).
  exists url, w3. split; [exact F|].
  unfold get_unit_details, loads. run_m. rewrite G, L.
  cbn [is_json_decode_error]. rewrite C. cbn [Py.setitem]. now rewrite F.
Qed.

End Pipelines.

(** With the model down, the detail carries the text of the error the
    first call raised. *)
Lemma unit_pipeline_failures_are_500_witness :
  get_unit_details Demo.env (JStr (py "A")) (py "Python") EASY
    (py "Basics") PipelineScenario.down_world
  = (Raise (HTTPException 500
              (py "Failed to generate unit details for A: "
               ++ exn_str Demo.env (LibraryError 9))),
     Demo.model_says []).
Proof.
  destruct (unit_pipeline_failures_are_500 Demo.env (JStr (py "A"))
              (py "Python") EASY (py "Basics") PipelineScenario.down_world
              (Demo.model_says [])
              (HTTPException 500
                 (py "Failed to generate unit details for A: "
                  ++ exn_str Demo.env (LibraryError 9))))
    as [[_ Back] _].
  apply Back. exists (LibraryError 9). split; reflexivity.
Defined.

Lemma unit_reply_missing_key_witness :
  http_status
    (fst (get_unit_details_with_mcqs Demo.env (JStr (py "A")) (py "Python")
            EASY (py "Basics") PipelineScenario.untitled_world)) = 500%Z
  /\ http_status
       (fst (get_unit_details Demo.env (JStr (py "A")) (py "Python")
               EASY (py "Basics") PipelineScenario.no_topics_world)) = 500%Z.
Proof.
  split.
  - destruct (unit_reply_missing_key Demo.env (JStr (py "A")) (py "Python")
                EASY (py "Basics") PipelineScenario.untitled_world
                (Demo.model_says []) (Demo.dumps Demo.empty_object) _
                eq_refl) as [H _].
    rewrite H; reflexivity.
  - destruct (unit_reply_missing_key Demo.env (JStr (py "A")) (py "Python")
                EASY (py "Basics") PipelineScenario.no_topics_world
                (Demo.model_says []) (Demo.fenced (Demo.stub "A")) _
                eq_refl) as [_ H].
    rewrite H; [reflexivity | reflexivity | discriminate | reflexivity].
Defined.

Lemma unit_survives_video_failure_witness :
  exists u,
    fst (get_unit_details Demo.env (JStr (py "A")) (py "Python") EASY
           (py "Basics") PipelineScenario.slow_video_world) = Ok u
    /\ Py.getitem u (py "youtube_video_url") = Ok (JStr FETCH_TIMEOUT).
Proof.
  destruct (unit_survives_video_failure Demo.env (JStr (py "A"))
              (py "Python") EASY (py "Basics")
              PipelineScenario.slow_video_world _ _ _ _ _
              eq_refl eq_refl eq_refl) as (url & w3 & F & H).
  eexists. rewrite H. split; [reflexivity|].
  vm_compute in F. inversion F. reflexivity.
Defined.

(** ** Skeletons that fail a course request *)

Module SkeletonScenario.

(** Stub A has a title and its pipeline returns; the second stub has no
    title. *)
Definition untitled_course_world : Demo.script :=
  Demo.model_says
    [Ok (Demo.dumps Demo.broken_skeleton); Ok (Demo.fenced Demo.unit_detail);
     Ok (Demo.dumps Demo.topic_contents)].

Definition untitled_question_world : Demo.script :=
  Demo.model_says
    [Ok (Demo.dumps Demo.broken_skeleton); Ok (Demo.dumps (Demo.stub "A"));
     Ok (Demo.dumps Demo.empty_object)].

Definition not_json_world : Demo.script :=
  Demo.model_says [Ok (py "Sorry, I cannot help with that.")].

Definition no_units_world : Demo.script :=
  Demo.model_says [Ok (Demo.dumps Demo.no_units_skeleton)].

Definition empty_units_world : Demo.script :=
  Demo.model_says [Ok (Demo.dumps Demo.empty_units_skeleton)].

End SkeletonScenario.

Section SkeletonFailures.
Variable E : Env.
Import TextRepair.

Local Abbreviation W := (World E).

Lemma course_step_untitled (request : CourseRequest) (u : json)
  (acc : list json) (w : W) (e : exn) :
  Py.getitem u (py "unitTitle") = Raise e ->
  course_step E request u acc w = (Raise e, w).
Proof. intros H. unfold course_step. run_m. now rewrite H. Qed.

Lemma course_loop_app (request : CourseRequest) (a b : list json) :
  forall acc w,
    course_loop E request (a ++ b) acc w
    = bind (course_loop E request a acc)
        (fun acc' => course_loop E request b acc') w.
Proof.
  induction a as [|u a IH]; intros acc w; [reflexivity|].
  cbn [app course_loop]. unfold bind in *.
  destruct (course_step E request u acc w) as [[acc'|e] w1];
    [|reflexivity].
  apply IH.
Qed.

(** X11.  In [generate_course] a stub without [unitTitle] ends the whole
    request with a 500: the pipelines of the stubs before it have run and
    their units are discarded, the stubs after it are not visited.  The
    handler that skips a failed unit formats [unit['unitTitle']] into its
    log line, and that lookup raises again. *)
Theorem generate_course_aborts_on_untitled_stub
  (request : CourseRequest) (w w1 : W) (text : pystr)
  (d : list (pystr * json)) (good rest titles : list json) (bad : json)
  (e : exn) :
  generate_content E (structure_prompt E request) w = (Ok text, w1) ->
  json_loads E (clean_json text) = Some (JObj d) ->
  Py.dict_get (py "units") d = Some (JArr (good ++ bad :: rest)) ->
  read_titles good = Ok titles ->
  Py.getitem bad (py "unitTitle") = Raise e ->
  generate_course E request w
  = (Raise (HTTPException 500 (exn_str E e)),
     snd (gather E (detail_tasks E request titles) w1)).
Proof.
  intros G L U T B. unfold generate_course, loads. run_m. rewrite G, L.
  unfold Py.getitem at 1. rewrite U. cbn [Py.iter].
  rewrite course_loop_app. unfold bind at 1.
  rewrite (course_loop_gather E request good titles [] w1 T).
  cbn [course_loop]. unfold bind at 1.
  now rewrite (course_step_untitled request bad _ _ e B).
Qed.

(** X12.  In [generate_question] a stub without [unitTitle] ends the
    request with a 500 before any pipeline runs: after the skeleton call the
    model is not asked again. *)
Theorem generate_question_fails_before_batch
  (request : CourseRequest) (w w1 : W) (text : pystr)
  (d : list (pystr * json)) (stubs : list json) (e : exn) :
  generate_content E (structure_prompt E request) w = (Ok text, w1) ->
  json_loads E (clean_json text) = Some (JObj d) ->
  Py.dict_get (py "units") d = Some (JArr stubs) ->
  read_titles stubs = Raise e ->
  generate_question E request w
  = (Raise (HTTPException 500 (exn_str E e)), w1).
Proof.
  intros G L U T. unfold generate_question, loads. run_m. rewrite G, L.
  unfold Py.getitem at 1. rewrite U. cbn [Py.iter]. now rewrite T.
Qed.

(** X13.  Both course endpoints answer 500, with the text of the cause as
    detail and without a further call, when the skeleton call raises, when
    its reply is not JSON, when the parsed dictionary has no [units], and
    when [units] is an empty list. *)
Theorem skeleton_failures_are_500
  (endpoint : CourseRequest -> M W json) (request : CourseRequest)
  (w w1 : W) :
  endpoint = generate_course E \/ endpoint = generate_question E ->
  (forall e,
     generate_content E (structure_prompt E request) w = (Raise e, w1) ->
     endpoint request w = (Raise (HTTPException 500 (exn_str E e)), w1))
  /\ (forall text,
        generate_content E (structure_prompt E request) w = (Ok text, w1) ->
        json_loads E (clean_json text) = None ->
        endpoint request w
        = (Raise (HTTPException 500 (exn_str E JSONDecodeError)), w1))
  /\ (forall text d,
        generate_content E (structure_prompt E request) w = (Ok text, w1) ->
        json_loads E (clean_json text) = Some (JObj d) ->
        Py.dict_get (py "units") d = None ->
        endpoint request w
        = (Raise (HTTPException 500 (exn_str E (KeyError (py "units")))), w1))
  /\ (forall text d,
        generate_content E (structure_prompt E request) w = (Ok text, w1) ->
        json_loads E (clean_json text) = Some (JObj d) ->
        Py.dict_get (py "units") d = Some (JArr []) ->
        endpoint request w
        = (Raise (HTTPException 500
                    (exn_str E (HTTPException 500 NO_UNITS))), w1)).
Proof.
  intros [-> | ->].
  - repeat split.
    + intros e G. unfold generate_course. run_m. now rewrite G.
    + intros text G L. unfold generate_course, loads. run_m.
      now rewrite G, L.
    + intros text d G L U. unfold generate_course, loads. run_m.
      rewrite G, L. unfold Py.getitem. now rewrite U.
    + intros text d G L U. unfold generate_course, loads. run_m.
      rewrite G, L. unfold Py.getitem at 1. now rewrite U.
  - repeat split.
    + intros e G. unfold generate_question. run_m. now rewrite G.
    + intros text G L. unfold generate_question, loads. run_m.
      now rewrite G, L.
    + intros text d G L U. unfold generate_question, loads. run_m.
      rewrite G, L. unfold Py.getitem. now rewrite U.
    + intros text d G L U. unfold generate_question, loads. run_m.
      rewrite G, L. unfold Py.getitem at 1. now rewrite U.
Qed.

End SkeletonFailures.

Lemma generate_course_aborts_on_untitled_stub_witness :
  http_status
    (fst (generate_course Demo.env Demo.request3
            SkeletonScenario.untitled_course_world)) = 500%Z.
Proof.
  rewrite (generate_course_aborts_on_untitled_stub Demo.env Demo.request3
             SkeletonScenario.untitled_course_world _ _ _
             [Demo.stub "A"] [Demo.stub "C"] [JStr (py "A")]
             Demo.empty_object (KeyError (py "unitTitle"))
             eq_refl eq_refl eq_refl eq_refl eq_refl).
  reflexivity.
Defined.

Lemma generate_question_fails_before_batch_witness :
  snd (generate_question Demo.env Demo.request3
         SkeletonScenario.untitled_question_world)
  = Demo.model_says
      [Ok (Demo.dumps (Demo.stub "A")); Ok (Demo.dumps Demo.empty_object)].
Proof.
  erewrite generate_question_fails_before_batch; [ | reflexivity ..].
  reflexivity.
Defined.

Lemma skeleton_failures_are_500_witness :
  http_status
    (fst (generate_course Demo.env Demo.request3
            SkeletonScenario.not_json_world)) = 500%Z
  /\ http_status
       (fst (generate_question Demo.env Demo.request3
               SkeletonScenario.no_units_world)) = 500%Z
  /\ http_status
       (fst (generate_question Demo.env Demo.request3
               SkeletonScenario.empty_units_world)) = 500%Z
  /\ http_status
       (fst (generate_course Demo.env Demo.request3
               (Demo.model_says [Raise (LibraryError 5)]))) = 500%Z.
Proof.
  destruct (skeleton_failures_are_500 Demo.env (generate_course Demo.env)
              Demo.request3 SkeletonScenario.not_json_world
              (Demo.model_says []) (or_introl eq_refl)) as (_ & A & _).
  destruct (skeleton_failures_are_500 Demo.env (generate_question Demo.env)
              Demo.request3 SkeletonScenario.no_units_world
              (Demo.model_says []) (or_intror eq_refl)) as (_ & _ & B & _).
  destruct (skeleton_failures_are_500 Demo.env (generate_question Demo.env)
              Demo.request3 SkeletonScenario.empty_units_world
              (Demo.model_says []) (or_intror eq_refl)) as (_ & _ & _ & C).
  destruct (skeleton_failures_are_500 Demo.env (generate_course Demo.env)
              Demo.request3 (Demo.model_says [Raise (LibraryError 5)])
              (Demo.model_says []) (or_introl eq_refl)) as (D & _).
  split; [erewrite A; reflexivity|].
  split; [erewrite B; reflexivity|].
  split; [erewrite C; reflexivity|].
  erewrite D; reflexivity.
Defined.

(** ** A stub without a title under the premises of the unit count *)

Section UntitledStub.
Variable E : Env.
Import TextRepair.

Local Abbreviation W := (World E).

(** C3, on the code.  Let the request be valid and the skeleton reply
    parse to a dictionary whose [units] list has as many stubs as the
    request asks for.  If one stub has no [unitTitle], the request fails
    with status 500 whatever the pipelines of the stubs before it returned:
    the handler that should log the unit and go on to the next one looks
    [unit['unitTitle']] up again for its log line, and that raises out of
    the loop.  The units already collected are lost, so the request fails
    although not every pipeline failed. *)
Theorem generate_course_untitled_stub_fails_request
  (request : CourseRequest) (w w1 : W) (text : pystr)
  (d : list (pystr * json)) (good rest titles : list json) (bad : json)
  (e : exn) :
  valid_course_request request ->
  generate_content E (structure_prompt E request) w = (Ok text, w1) ->
  json_loads E (clean_json text) = Some (JObj d) ->
  Py.dict_get (py "units") d = Some (JArr (good ++ bad :: rest)) ->
  List.length (good ++ bad :: rest) = Z.to_nat (units request) ->
  read_titles good = Ok titles ->
  Py.getitem bad (py "unitTitle") = Raise e ->
  let outs := fst (gather E (detail_tasks E request titles) w1) in
  List.length outs = List.length good
  /\ (forall i t, nth_error (detail_tasks E request titles) i = Some t ->
        exists wi, nth_error outs i = Some (fst (t wi)))
  /\ fst (generate_course E request w)
     = Raise (HTTPException 500 (exn_str E e))
  /\ http_status (fst (generate_course E request w)) = 500%Z.
Proof.
  intros V G L U N T B outs.
  assert (Run : fst (generate_course E request w)
                = Raise (HTTPException 500 (exn_str E e))).
  { unfold generate_course, loads. run_m. rewrite G, L.
    unfold Py.getitem at 1. rewrite U. cbn [Py.iter].
    rewrite course_loop_app. unfold bind at 1.
    rewrite (course_loop_gather E request good titles [] w1 T).
    cbn [course_loop]. unfold bind at 1.
    now rewrite (course_step_untitled E request bad _ _ e B). }
  split.
  { unfold outs, detail_tasks.
    now rewrite gather_length, length_map, (read_titles_length _ _ T). }
  split.
  { intros i t H. apply (gather_nth E json _ w1 i t H). }
  split; [exact Run|]. now rewrite Run.
Qed.

End UntitledStub.

(** [generate_course_untitled_stub_fails_request] on the scripted run of
    three stubs of which the second has no title: the pipeline of the first
    returned a unit, and the request fails. *)
Lemma generate_course_untitled_stub_fails_request_witness :
  http_status
    (fst (generate_course Demo.env Demo.request3
            SkeletonScenario.untitled_course_world)) = 500%Z
  /\ Exists (fun o => is_ok o = true)
       (fst (gather Demo.env
               (detail_tasks Demo.env Demo.request3 [JStr (py "A")])
               (Demo.model_says
                  [Ok (Demo.fenced Demo.unit_detail);
                   Ok (Demo.dumps Demo.topic_contents)]))).
Proof.
  destruct (generate_course_untitled_stub_fails_request Demo.env
              Demo.request3 SkeletonScenario.untitled_course_world _ _ _
              [Demo.stub "A"] [Demo.stub "C"] [JStr (py "A")]
              Demo.empty_object (KeyError (py "unitTitle"))
              Scenario.request3_valid
              eq_refl eq_refl eq_refl eq_refl eq_refl eq_refl)
    as (_ & _ & _ & S).
  split; [exact S|].
  vm_compute. constructor. reflexivity.
Defined.

(** ** Order of the units of the full-detail endpoint *)

Section CourseOrder.
Variable E : Env.
Import TextRepair.

Local Abbreviation W := (World E).

Lemma generate_course_run
  (request : CourseRequest) (w w1 : W) (text : pystr)
  (d : list (pystr * json)) (stubs titles : list json) :
  generate_content E (structure_prompt E request) w = (Ok text, w1) ->
  json_loads E (clean_json text) = Some (JObj d) ->
  Py.dict_get (py "units") d = Some (JArr stubs) ->
  read_titles stubs = Ok titles ->
  fst (generate_course E request w)
  = let outs := fst (gather E (detail_tasks E request titles) w1) in
    if Py.is_empty (successes outs)
    then Raise (HTTPException 500 (exn_str E (HTTPException 500 NO_UNITS)))
    else Ok (JObj (Py.dict_set (py "units") (JArr (successes outs)) d)).
Proof.
  intros G L U T. unfold generate_course, loads. run_m. rewrite G, L.
  unfold Py.getitem. rewrite U. cbn [Py.iter].
  rewrite (course_loop_gather E request stubs titles [] w1 T).
  cbn [app]. cbv zeta.
  destruct (successes (fst (gather E (detail_tasks E request titles) w1)));
    reflexivity.
Qed.

(** X14.  The units of an answer of [generate_course] stand in the order
    of their stubs: they are the values of the pipelines at strictly
    increasing positions, the pipeline at a position being the one of the
    stub at that position, and no value is left out. *)
Theorem generate_course_keeps_order
  (request : CourseRequest) (w w1 : W) (text : pystr)
  (d : list (pystr * json)) (stubs titles : list json) (v : json) :
  generate_content E (structure_prompt E request) w = (Ok text, w1) ->
  json_loads E (clean_json text) = Some (JObj d) ->
  Py.dict_get (py "units") d = Some (JArr stubs) ->
  read_titles stubs = Ok titles ->
  fst (generate_course E request w) = Ok v ->
  let outs := fst (gather E (detail_tasks E request titles) w1) in
  exists units',
    Py.getitem v (py "units") = Ok (JArr units')
    /\ StronglySorted lt (ok_positions json 0 outs)
    /\ Forall2 (fun p u => nth_error outs p = Some (Ok u))
         (ok_positions json 0 outs) units'
    /\ (forall p u, nth_error outs p = Some (Ok u) ->
          In p (ok_positions json 0 outs))
    /\ (forall p u, nth_error stubs p = Some u ->
          exists t wi,
            Py.getitem u (py "unitTitle") = Ok t
            /\ nth_error outs p
               = Some (fst (get_unit_details E t (subject request)
                              (difficulty request) (focus_area request) wi))).
Proof.
  intros G L U T R outs.
  rewrite (generate_course_run request w w1 text d stubs titles G L U T) in R.
  cbv zeta in R. fold outs in R.
  destruct (Py.is_empty (successes outs)); [discriminate|].
  inversion R. subst v. clear R.
  exists (successes outs). split.
  { unfold Py.getitem. now rewrite dict_get_set_same. }
  split; [apply ok_positions_sorted|].
  split.
  { eapply Forall2_impl; [|apply (ok_positions_values json outs 0)].
    simpl. intros p u [_ H]. now rewrite Nat.sub_0_r in H. }
  split.
  { intros p u H. apply (ok_positions_complete json outs 0 p u H). }
  intros p u H.
  destruct (read_titles_nth stubs titles T p u H) as (t & Ht & Hu).
  destruct (gather_nth E json (detail_tasks E request titles) w1 p
              (get_unit_details E t (subject request) (difficulty request)
                 (focus_area request))) as [wi Hwi].
  { unfold detail_tasks. now rewrite nth_error_map, Ht. }
  now exists t, wi.
Qed.

(** X15.  For a request that passed validation, whatever the model and
    the network do, the handlers of the two course endpoints and of the
    recommendation endpoint answer 200 or 500, never another status. *)
Theorem catch_all_endpoints_answer_200_or_500 :
  (forall request w,
     valid_course_request request ->
     http_status (fst (generate_course E request w)) = 200%Z
     \/ http_status (fst (generate_course E request w)) = 500%Z)
  /\ (forall request w,
        valid_course_request request ->
        http_status (fst (generate_question E request w)) = 200%Z
        \/ http_status (fst (generate_question E request w)) = 500%Z)
  /\ (forall student_level course w,
        http_status (fst (recommend_course E student_level course w)) = 200%Z
        \/ http_status (fst (recommend_course E student_level course w))
           = 500%Z).
Proof.
  split; [intros; apply wrapped_status|].
  split; [intros; apply wrapped_status|].
  intros l c w. unfold recommend_course, try_except, raise.
  match goal with
  | |- context [match ?m w with _ => _ end] => destruct (m w) as [[a|e] w']
  end; simpl; [now left|].
  destruct (is_json_decode_error e); simpl; now right.
Qed.

End CourseOrder.

(** The validated request of three units on two scripted runs. *)
Lemma catch_all_endpoints_answer_200_or_500_witness :
  http_status
    (fst (generate_course Demo.env Demo.request3 Scenario.course_world))
  = 200%Z
  /\ http_status
       (fst (generate_question Demo.env Demo.request3
               SkeletonScenario.not_json_world)) = 500%Z.
Proof.
  destruct (catch_all_endpoints_answer_200_or_500 Demo.env) as (C & Q & _).
  split.
  - destruct (C Demo.request3 Scenario.course_world Scenario.request3_valid)
      as [H|H]; [exact H|]. vm_compute in H. discriminate.
  - destruct (Q Demo.request3 SkeletonScenario.not_json_world
                Scenario.request3_valid)
      as [H|H]; [|exact H]. vm_compute in H. discriminate.
Defined.

Lemma generate_course_keeps_order_witness :
  exists v units',
    fst (generate_course Demo.env Demo.request3 Scenario.course_world) = Ok v
    /\ Py.getitem v (py "units") = Ok (JArr units')
    /\ map (fun u => Py.getitem u (py "unitTitle")) units'
       = [Ok (JStr (py "A"))].
Proof.
  destruct (generate_course_keeps_order Demo.env Demo.request3
              Scenario.course_world _ _ _ _ _ _
              eq_refl eq_refl eq_refl eq_refl eq_refl)
    as (units' & U & _).
  eexists _, units'. split; [reflexivity|]. split; [exact U|].
  vm_compute in U. inversion U. vm_compute. reflexivity.
Defined.

(** ** The recommendation endpoint *)

Module RecommendScenario.




Definition down_world : Demo.script :=
  Demo.model_says [Raise (LibraryError 2)].

End RecommendScenario.

Section Recommendation.
Variable E : Env.
Import TextRepair.

Local Abbreviation W := (World E).


End Recommendation.


(** ** Other failures of the document endpoint *)

Module DocFailures.




End DocFailures.

Section DocumentFailures.
Variable E : Env.
Import TextRepair.

Local Abbreviation W := (World E).


End DocumentFailures.


(** ** The classifier on validated quiz results *)

Lemma SFcompare_Gt_swap (x y : spec_float) :
  SFcompare x y = Some Gt -> SFcompare y x = Some Lt.
Proof.
  destruct x as [sx|sx| |sx mx ex], y as [sy|sy| |sy my ey]; simpl;
    try discriminate;
    try (destruct sx; discriminate); try (destruct sy; discriminate);
    try (destruct sx, sy; (discriminate || reflexivity)).
  destruct sx, sy; try discriminate; try reflexivity.
  all: rewrite (Z.compare_antisym ex ey);
    destruct (ex ?= ey)%Z eqn:E; simpl; try discriminate; try reflexivity.
  all: rewrite (compare_cont_Eq mx my), (compare_cont_Eq my mx),
    (Pos.compare_antisym mx my);
    destruct (Pos.compare mx my); simpl; intros H;
      try discriminate; try reflexivity.
Qed.

Lemma SFcompare_None (x y : spec_float) :
  SFcompare x y = None -> x = S754_nan \/ y = S754_nan.
Proof.
  destruct x as [sx|sx| |sx mx ex], y as [sy|sy| |sy my ey]; simpl;
    try discriminate; auto.
Qed.

Definition is_nan (x : float) : bool :=
  match Prim2SF x with S754_nan => true | _ => false end.

(** Two comparable floats are ordered one way or the other. *)
Lemma leb_false_ltb (x y : float) :
  is_nan x = false -> is_nan y = false ->
  (x <=? y)%float = false -> (y <? x)%float = true.
Proof.
  unfold is_nan. rewrite ltb_spec, leb_spec. unfold SFltb, SFleb.
  intros Nx Ny.
  destruct (SFcompare (Prim2SF x) (Prim2SF y)) as [[| |]|] eqn:C;
    try discriminate.
  - intros _. now rewrite (SFcompare_Gt_swap _ _ C).
  - apply SFcompare_None in C. destruct C as [C|C]; rewrite C in *;
      discriminate.
Qed.

(** A float that compares with another one is no NaN. *)
Lemma leb_not_nan (x y : float) :
  (x <=? y)%float = true -> is_nan x = false /\ is_nan y = false.
Proof.
  unfold is_nan. rewrite leb_spec. unfold SFleb.
  destruct (Prim2SF x), (Prim2SF y); simpl; try discriminate; auto.
Qed.

Lemma ltb_not_nan (x y : float) :
  (x <? y)%float = true -> is_nan x = false /\ is_nan y = false.
Proof.
  unfold is_nan. rewrite ltb_spec. unfold SFltb.
  destruct (Prim2SF x), (Prim2SF y); simpl; try discriminate; auto.
Qed.

Section ClassifierPartition.
Import Classifier.

(** X18.  On a quiz result that passed validation (a score from 0 to 9 and
    a positive time) the three levels partition the inputs by the rules
    read as equivalences: Advanced exactly for a score of at least 7 in at
    most 80 seconds, Intermediate exactly for a score from 4 up to but not
    including 7, Beginner exactly for a score below 4 or a score of at least
    7 in more than 80 seconds. *)
Theorem predict_user_level_partition (q : QuizResult) :
  valid_quiz_result q = true ->
  let l := predict_user_level (score q) (time_taken q) in
  (l = ADVANCED <->
     (seven <=? score q)%float = true
     /\ (time_taken q <=? eighty)%float = true)
  /\ (l = INTERMEDIATE <->
        (four <=? score q)%float = true /\ (score q <? seven)%float = true)
  /\ (l = BEGINNER <->
        (score q <? four)%float = true
        \/ ((seven <=? score q)%float = true
            /\ (eighty <? time_taken q)%float = true)).
Proof.
  unfold valid_quiz_result. intros V.
  apply andb_true_iff in V as [V Vt]. apply andb_true_iff in V as [V0 V9].
  destruct (leb_not_nan _ _ V0) as [_ Ns].
  destruct (ltb_not_nan _ _ Vt) as [_ Nt].
  assert (N7 : is_nan seven = false) by (vm_compute; reflexivity).
  assert (N4 : is_nan four = false) by (vm_compute; reflexivity).
  assert (N80 : is_nan eighty = false) by (vm_compute; reflexivity).
  cbv zeta. split; [|split].
  - split.
    + unfold predict_user_level.
      destruct (seven <=? score q)%float, (time_taken q <=? eighty)%float;
        simpl; auto;
        destruct ((four <=? score q)%float && (score q <? seven)%float);
        discriminate.
    + intros [A B]. now apply predict_advanced.
  - split.
    + unfold predict_user_level.
      destruct ((seven <=? score q)%float && (time_taken q <=? eighty)%float);
        [discriminate|].
      destruct (four <=? score q)%float, (score q <? seven)%float;
        simpl; auto; discriminate.
    + intros [A B]. now apply predict_intermediate.
  - split.
    + unfold predict_user_level.
      destruct (seven <=? score q)%float eqn:S7.
      * destruct (time_taken q <=? eighty)%float eqn:T; simpl;
          [discriminate|].
        intros _. right. split; [reflexivity|].
        now apply leb_false_ltb.
      * simpl. destruct (four <=? score q)%float eqn:S4; simpl.
        -- rewrite (leb_false_ltb _ _ N7 Ns S7). discriminate.
        -- intros _. left. now apply leb_false_ltb.
    + intros [A|[A B]]; [now apply predict_low | now apply predict_slow].
Qed.

End ClassifierPartition.

Lemma predict_user_level_partition_witness :
  Classifier.predict_user_level 8%float 200%float = Classifier.BEGINNER.
Proof.
  destruct (predict_user_level_partition
              {| score := 8%float; time_taken := 200%float |} eq_refl)
    as (_ & _ & [_ B]).
  apply B. right. split; reflexivity.
Defined.
